(** * Agilent E4418 power-meter driver: error query, error decoding, zeroing

    A shallow embedding of [pymeasure/device/Agilent/E4418.py]:
    the class [E4418] (methods [_error_check], [error_query], [zeroing]) and
    the helper classes [error_item] and [error_handler] (the class attribute
    [error_list] and the class method [check]).

    Python values are modelled as follows.
    - [str] (a Python 2 byte string) is [string]; [int]/[long] is [Z].
    - A call either returns a value or raises: [result].
    - The methods of [E4418] talk to the instrument through [self.com] and
      to the clock through [time.sleep]; they are functions in a
      state-and-exception monad [M] over a [world] that holds the lines the
      instrument still has to answer, the log of what the driver did and
      the coming failures of the link. *)

From Stdlib Require Import ZArith List String Ascii Bool Lia.
From Stdlib Require Import Decimal DecimalFacts DecimalPos DecimalZ DecimalString.
Import ListNotations.

Local Open Scope string_scope.
Local Open Scope Z_scope.

(** ** Characters that cannot be written inside a literal *)

Definition DQ : string := String "034"%char EmptyString.
Definition LF : string := String "010"%char EmptyString.

(** ** Results of Python calls *)

Inductive exn : Type :=
| StandardError (message : string)
| ValueError (literal : string)
| IndexError
| CommunicationError.

Inductive result (A : Type) : Type :=
| Return (a : A)
| Raise (e : exn).

Arguments Return {A} a.
Arguments Raise {A} e.

(** ** Python built-ins used by the driver *)

Module Py.

(** [str.isspace] on a byte of a Python 2 [str]: space, \t, \n, \v, \f, \r. *)
Definition isspace (c : ascii) : bool :=
  let n := nat_of_ascii c in
  (Nat.eqb n 32 || (Nat.leb 9 n && Nat.leb n 13))%bool.

(** [s.lstrip(chars)], [s.rstrip(chars)], [s.strip(chars)] with the set of
    characters given as a predicate. *)
Fixpoint lstrip_by (p : ascii -> bool) (s : string) : string :=
  match s with
  | EmptyString => EmptyString
  | String c s' => if p c then lstrip_by p s' else s
  end.

Fixpoint rstrip_by (p : ascii -> bool) (s : string) : string :=
  match s with
  | EmptyString => EmptyString
  | String c s' =>
      match rstrip_by p s' with
      | EmptyString => if p c then EmptyString else String c EmptyString
      | r => String c r
      end
  end.

Definition strip_by (p : ascii -> bool) (s : string) : string :=
  rstrip_by p (lstrip_by p s).

(** [s.strip()] *)
Definition strip (s : string) : string := strip_by isspace s.

(** [s.strip(chars)]: [chars] is the set of characters to remove. *)
Fixpoint mem (c : ascii) (chars : string) : bool :=
  match chars with
  | EmptyString => false
  | String d chars' => (Ascii.eqb c d || mem c chars')%bool
  end.

Definition strip_chars (s chars : string) : string :=
  strip_by (fun c => mem c chars) s.

(** [s.split(sep)] for a one-character separator: always at least one
    field, empty fields are kept. *)
Fixpoint split (s : string) (sep : ascii) : list string :=
  match s with
  | EmptyString => [EmptyString]
  | String c s' =>
      if Ascii.eqb c sep then EmptyString :: split s' sep
      else match split s' sep with
           | f :: fs => String c f :: fs
           | [] => [String c EmptyString]
           end
  end.

(** [l[i]] for [i >= 0]. *)
Definition getitem {A : Type} (l : list A) (i : nat) : result A :=
  match nth_error l i with
  | Some a => Return a
  | None => Raise IndexError
  end.

(** [int(s)] on a Python 2 byte string, base 10, as CPython 2 reads it
    ([PyInt_FromString], [PyOS_strtol], [PyOS_strtoul]): whitespace before
    the literal and after it is skipped, one optional sign is taken,
    whitespace after the sign is skipped as well, and what remains has to
    be one or more decimal digits.  So [int('- 5')] is [-5] and
    [int('+ 0')] is [0]. *)
Definition int_literal (s : string) : option Z :=
  match strip s with
  | String "+" d =>
      option_map Z.of_uint (NilZero.uint_of_string (lstrip_by isspace d))
  | String "-" d =>
      option_map (fun u => - Z.of_uint u)
        (NilZero.uint_of_string (lstrip_by isspace d))
  | d => option_map Z.of_uint (NilZero.uint_of_string d)
  end.

Definition int (s : string) : result Z :=
  match int_literal s with
  | Some n => Return n
  | None => Raise (ValueError s)
  end.

(** ['%d' % n] *)
Definition fmt_d (n : Z) : string := NilZero.string_of_int (Z.to_int n).

(** [s * n] *)
Fixpoint mul (s : string) (n : nat) : string :=
  match n with
  | O => EmptyString
  | S n' => s ++ mul s n'
  end.

(** [len(s)] *)
Definition len (s : string) : nat := String.length s.

End Py.

(** ** Helper classes *)

(** *** [class error_item] *)

Module error_item.
Record t : Type := init { num : Z; msg : string; txt : string }.
End error_item.

(** *** [class error_handler] *)

Module error_handler.

(** [error_list]: the catalog, in source order. *)
Definition error_list : list error_item.t :=
  [ error_item.init 0 "No error"
      EmptyString;
    error_item.init (-101) "Invalid character"
      "An invalid character was found in the command string. You may have inserted a character such as #, $ or % in the command header or within a parameter. For example, LIM:LOW O#.";
    error_item.init (-102) "Syntax error"
      "Invalid syntax was found in the command string. For example, LIM:CLE:AUTO, 1 or LIM:CLE:AUTO 1.";
    error_item.init (-103) "Invalid separator"
      "An invalid separator was found in the command string. You may have used a comma instead of a colon, semicolon or blank space; or you may have used a blank space instead of a comma. For example, OUTP:ROSC,1.";
    error_item.init (-105) "GET not allowed"
      "A Group Execute Trigger (GET) is not allowed within a command string.";
    error_item.init (-108) "Parameter not allowed"
      "More parameters were received than expected for the command. You may have entered an extra parameter or added a parameter to a command that does not accept a parameter. For example, CAL 10.";
    error_item.init (-109) "Missing parameter"
      "Fewer parameters were received than expected for the command. You omitted one or more parameters that are required for this command. For example, AVER:COUN.";
    error_item.init (-112) "Program mnemonic too long"
      "A command header was received which contained more than the maximum 12 characters allowed. For example, SENSeAVERageCOUNt 8.";
    error_item.init (-113) "Undefined header"
      "A command was received that is not valid for this power meter. You may have misspelled the command, it may not be a valid command or you may have the wrong interface selected. If you are using the short form of the command, remember that it may contain up to four letters. For example, TRIG:SOUR IMM.";
    error_item.init (-121) "Invalid character in number"
      "An invalid character was found in the number specified for a parameter value. For example, SENS:AVER:COUN 128#H.";
    error_item.init (-123) "Exponent too large"
      "A numeric parameter was found whose exponent was larger than 32,000. For example, SENS:COUN 1E34000.";
    error_item.init (-124) "Too many digits"
      "A numeric parameter was found whose mantissa contained more than 255 digits, excluding leading zeros.";
    error_item.init (-128) "Numeric data not allowed"
      "A numeric value was received within a command which does not accept a numeric value. For example, MEM:CLE 24.";
    error_item.init (-131) "Invalid suffix"
      "A suffix was incorrectly specified for a numeric parameter. You may have misspelled the suffix. For example, SENS:FREQ 200KZ.";
    error_item.init (-134) "Suffix too long"
      "A suffix used contained more than 12 characters. For example, SENS:FREQ 2MHZZZZZZZZZZZ.";
    error_item.init (-138) "Suffix not allowed"
      "A suffix was received following a numeric parameter which does not accept a suffix. For example, INIT:CONT 0Hz.";
    error_item.init (-148) "Character data not allowed"
      "A discrete parameter was received but a character string or a numeric parameter was expected. Check the list of parameters to verify that you have used a valid parameter type. For example, MEM:CLE CUSTOM_1.";
    error_item.init (-151) "Invalid string data"
      ("An invalid string was received. Check to see if you have enclosed the character string in single or double quotes. For example, MEM:CLE " ++ DQ ++ "CUSTOM_1.");
    error_item.init (-158) "String data not allowed"
      "A character string was received but is not allowed for the command. Check the list of parameters to verify that you have used a valid parameter type. For example, LIM:STAT `ON'.";
    error_item.init (-161) "Invalid block data"
      "A block data element was expected but was invalid for some reason. For example, *DDT #15FET. The 5 in the string indicates that 5 characters should follow, whereas in this example there are only 3.";
    error_item.init (-168) "Block data not allowed"
      "A legal block data element was encountered but not allowed by the power meter at this point. For example SYST:LANG #15FETC?.";
    error_item.init (-178) "Expression data not allowed"
      "A legal expression data was encountered but not allowed by the power meter at this point. For example SYST:LANG (5+2).";
    error_item.init (-211) "Trigger ignored"
      "Indicates that <GET> or *TRG or TRIG:IMM was received and recognized by the device but was ignored because the power meter was not in the wait for trigger state.";
    error_item.init (-213) "Init ignored"
      "Indicates that a request for a measurement initiation was ignored as the power meter was already initiated. For example, INIT:CONT ON INIT.";
    error_item.init (-214) "Trigger deadlock"
      "TRIG:SOUR was set to HOLD or BUS and a READ? or MEASure? was attempted, expecting TRIG:SOUR to be set to IMMediate.";
    error_item.init (-220) "Parameter error;Frequency list must be in ascending order."
      "Indicates that the frequencies entered using the MEMory:TABLe:FREQuency command are not in ascending order.";
    error_item.init (-221) "Settings conflict"
      "This command occurs under a variety of conflicting conditions. The following list gives a few examples of where this error may occur: * If the READ? parameters do not match the current settings. * If you are in fast mode and attempting to switch on for example, averaging, duty cycle or limits. * Trying to clear a sensor calibration table when none is selected.";
    error_item.init (-221) "Settings conflict;DTR/DSR not available on RS422"
      "DTR/DSR is only available on the RS232 interface.";
    error_item.init (-222) "Data out of range"
      "A numeric parameter value is outside the valid range for the command. For example, SENS:FREQ 2KHZ.";
    error_item.init (-224) "Illegal parameter value"
      "A discrete parameter was received which was not a valid choice for the command. You may have used an invalid parameter choice. For example, TRIG:SOUR EXT.";
    error_item.init (-226) "Lists not same length"
      "This occurs when SENSe:CORRection:CSET[1]|CSET2:STATe is set to ON and the frequency and calibration/offset lists do not correspond in length.";
    error_item.init (-230) "Data corrupt or stale"
      "This occurs when a FETC? is attempted and either a reset has been received or the power meter state has changed such that the current measurement is invalidated (for example, a change of frequency setting or triggering conditions).";
    error_item.init (-230) "Data corrupt or stale;Please zero and calibrate Channel A"
      "When CAL[1|2]:RCAL is set to ON and the sensor currently connected to channel A has not been zeroed and calibrated, then any command which would normally return a measurement result (for example FETC?, READ? or MEAS?) will generate this error message.";
    error_item.init (-230) "Data corrupt or stale;Please zero Channel A"
      "When CAL[1|2]:RCAL is set to ON and the sensor currently connected to channel A has not been zeroed, then any command which would normally return a measurement result (for example FETC?, READ? or MEAS?) will generate this error message.";
    error_item.init (-230) "Data corrupt or stale;Please calibrate Channel A"
      "When CAL[1|2]:RCAL is set to ON and the sensor currently connected to channel A has not been calibrated, then any command which would normally return a measurement result (for example FETC?, READ? or MEAS?) will generate this error message";
    error_item.init (-231) "Data questionable;CAL ERROR"
      "Power meter calibration failed. The most likely cause is attempting to calibrate without applying a 1 mW power to the power sensor.";
    error_item.init (-231) "Data questionable;Input Overload"
      "The power input to Channel A exceeds the power sensor's maximum range.";
    error_item.init (-231) "Data questionable;Lower window log error"
      "This indicates that a difference measurement in the lower window has given a negative result when the units of measurement were logarithmic.";
    error_item.init (-231) "Data questionable;Upper window log error"
      "This indicates that a difference measurement in the upper window has given a negative result when the units of measurement were logarithmic.";
    error_item.init (-231) "Data questionable;ZERO ERROR"
      "Power meter zeroing failed. The most likely cause is attempting to zero when some power signal is being applied to the power sensor.";
    error_item.init (-241) "Hardware missing"
      "The power meter is unable to execute the command because either no power sensor is connected or it expects an Agilent E-Series or N8480 Series power sensor, and one is not connected.";
    error_item.init (-310) "System error;Dty Cyc may impair accuracy with ECP sensor"
      "This indicates that the sensor connected is for use with CW signals only.";
    error_item.init (-310) "System error;Sensor EEPROM Read Failed - critical data not found or unreadable"
      "This indicates a failure with your Agilent E-Series or N8480 Series power sensor. Refer to your power sensor manual for details on returning it for repair.";
    error_item.init (-310) "System error;Sensor EEPROM Read Completed OK but optional data block(s) not found or unreadable"
      "This indicates a failure with your Agilent E-Series or N8480 Series power sensor. Refer to your power sensor manual for details on returning it for repair.";
    error_item.init (-310) "System error;Sensor EEPROM Read Failed - unknown EEPROM table format"
      "This indicates a failure with your Agilent E-Series or N8480 Series power sensor. Refer to your power sensor manual for details on returning it for repair.";
    error_item.init (-310) "System error;Sensor EEPROM < > data not found or unreadable"
      "Where < > refers to the sensor data block covered, for example, Linearity, Temp - Comp (temperature compensation). This indicates a failure with your Agilent E-Series or N8480 Series power sensor. Refer to your power sensor manual for details on returning it for repair.";
    error_item.init (-310) "System error;Option 001 Battery charger fault"
      "The power meter is connected to an AC power source, the battery is not fully charged and it is not charging.";
    error_item.init (-310) "System error;Sensors connected to both front and rear inputs. You cannot connect two power sensors to the one channel input. In this instance, the power"
      "meter detects power sensors connected to both its front and rear channel inputs.";
    error_item.init (-320) "Out of memory"
      "The power meter required more memory than was available to run an internal operation.";
    error_item.init (-330) "Self-test Failed;"
      ("The -330, " ++ DQ ++ "Self-test Failed" ++ DQ ++ " errors indicate that you have a problem with your power meter. Refer to " ++ DQ ++ "Contacting Agilent Technologies" ++ DQ ++ " on page 103 for details of what to do with your faulty power meter.");
    error_item.init (-330) "Self-test Failed;Measurement Channel Fault"
      ("Refer to " ++ DQ ++ "Measurement Assembly" ++ DQ ++ " on page 98 if you require a description of the Measurement Assembly test.");
    error_item.init (-330) "Self-test Failed;Option 001 Battery requires replacement"
      "The Option 001 battery is not charging to a satisfactory level and should be replaced.";
    error_item.init (-330) "Self-test Failed;RAM Battery Fault"
      ("Refer to " ++ DQ ++ "RAM Battery" ++ DQ ++ " on page 98 if you require a description of the battery test. ");
    error_item.init (-330) "Self-test Failed;Calibrator Fault"
      ("Refer to " ++ DQ ++ "Calibrator" ++ DQ ++ " on page 99 if you require a description of the calibrator test. ");
    error_item.init (-330) "Self-test Failed;ROM Check Failed"
      ("Refer to " ++ DQ ++ "ROM Checksum" ++ DQ ++ " on page 98 if you require a description of the ROM Checksum test. ");
    error_item.init (-330) "Self-test Failed;RAM Check Failed"
      ("Refer to " ++ DQ ++ "RAM" ++ DQ ++ " on page 98 if you require a description of the RAM test. ");
    error_item.init (-330) "Self-test Failed;Display Assy. Fault"
      ("Refer to " ++ DQ ++ "Display" ++ DQ ++ " on page 99 if you require a description of the Display test. ");
    error_item.init (-330) "Self-test Failed;Confidence Check Fault"
      ("Refer to " ++ DQ ++ "Confidence Check" ++ DQ ++ " on page 96 if you require a description of this test. ");
    error_item.init (-330) "Self-test Failed;Serial Interface Fault"
      ("Refer to " ++ DQ ++ "Serial Interface" ++ DQ ++ " on page 99 if you require a description of this test. ");
    error_item.init (-350) "Queue overflow"
      "The error queue is full and another error has occurred which could not be recorded.";
    error_item.init (-361) "Parity error in program"
      "The serial port receiver has detected a parity error and consequently, data integrity cannot be guaranteed.";
    error_item.init (-362) "Framing error in program"
      "The serial port receiver has detected a framing error and consequently, data integrity cannot be guaranteed.";
    error_item.init (-363) "Input buffer overrun"
      "The serial port receiver has been overrun and consequently, data has been lost.";
    error_item.init (-410) "Query INTERRUPTED"
      "A command was received which sends data to the output buffer, but the output buffer contained data from a previous command (the previous data is not overwritten). The output buffer is cleared when power has been off or after *RST (reset) command has been executed.";
    error_item.init (-420) "Query UNTERMINATED"
      "The power meter was addressed to talk (that is, to send data over the interface) but a command has not been received which sends data to the output buffer. For example, you may have executed a CONFigure command (which does not generate data) and then attempted to read data from the remote interface.";
    error_item.init (-430) "Query DEADLOCKED"
      "A command was received which generates too much data to fit in the output buffer and the input buffer is also full. Command execution continues but data is lost. -440 Query UNTERMINATED after indefinite response The *IDN? command must be the last query command within a command string."
  ].

(** The text built in the [if msg == e.msg:] branch, as a function of the
    three values it is formatted from; [check] calls it with [e.msg],
    [e.num] and [e.txt]. *)
Definition matched_format (e_msg : string) (e_num : Z) (e_txt : string) : string :=
  let emsg := e_msg ++ " (" ++ Py.fmt_d e_num ++ ")" in
  let msg := "Power meter returned Error message." ++ LF in
  let msg := msg ++ Py.mul "*" (Py.len emsg) ++ LF in
  let msg := msg ++ emsg ++ LF in
  let msg := msg ++ Py.mul "*" (Py.len emsg) ++ LF in
  let msg := msg ++ e_txt ++ LF in
  msg.

Definition matched_text (e : error_item.t) : string :=
  matched_format (error_item.msg e) (error_item.num e) (error_item.txt e).

(** The statements after the loop: the text raised when no entry matched. *)
Definition unmatched_text (num : Z) (msg : string) : string :=
  let _msg := "Power meter returned Error message." ++ LF in
  let emsg := msg ++ " (" ++ Py.fmt_d num ++ ")" ++ LF in
  let _msg := _msg ++ Py.mul "*" (Py.len emsg) ++ LF in
  let _msg := _msg ++ emsg in
  let _msg := _msg ++ Py.mul "*" (Py.len emsg) ++ LF in
  _msg.

(** [for e in cls.error_list: if msg == e.msg: ... raise ...; continue]:
    [None] when the loop runs to its end, otherwise the exception raised at
    the first entry whose message equals [msg]. *)
Fixpoint check_for (msg : string) (l : list error_item.t) : option exn :=
  match l with
  | [] => None
  | e :: l' =>
      if String.eqb msg (error_item.msg e)
      then Some (StandardError (matched_text e))
      else check_for msg l'
  end.

(** [error_handler.check(num, msg)] *)
Definition check (num : Z) (msg : string) : result unit :=
  if Z.eqb num 0 then Return tt
  else match check_for msg error_list with
       | Some ex => Raise ex
       | None => Raise (StandardError (unmatched_text num msg))
       end.

End error_handler.

(** ** The instrument link and the clock *)

(** What the driver does to the outside, in order. *)
Inductive event : Type :=
| Send (cmd : string)
| Readline (line : string)
| Sleep (secs : Z).

(** [pending]: the lines the instrument will answer, oldest first.
    [log]: the events so far, oldest first.
    [outages]: for each coming operation of the link, oldest first, whether
    the link fails at it; past the end of the list the link works. *)
Record world : Type :=
  mkLink { pending : list string; log : list event; outages : list bool }.

(** A world whose link does not fail. *)
Definition mkWorld (pending : list string) (log : list event) : world :=
  mkLink pending log [].

Definition M (A : Type) : Type := world -> result A * world.

Definition pure {A : Type} (a : A) : M A := fun w => (Return a, w).

Definition bind {A B : Type} (c : M A) (k : A -> M B) : M B :=
  fun w =>
    match c w with
    | (Return a, w') => k a w'
    | (Raise e, w') => (Raise e, w')
    end.

Definition lift {A : Type} (r : result A) : M A := fun w => (r, w).

Definition emit (ev : event) : M unit :=
  fun w => (Return tt, mkLink (pending w) (log w ++ [ev]) (outages w)).

Declare Scope py_scope.
Delimit Scope py_scope with py.
Notation "x <- c ;; k" := (bind c (fun x => k))
  (at level 61, c at next level, right associativity) : py_scope.
Notation "' pat <- c ;; k" := (bind c (fun x => match x with pat => k end))
  (at level 61, pat pattern, c at next level, right associativity) : py_scope.
Notation "c ;; k" := (bind c (fun _ => k))
  (at level 61, right associativity) : py_scope.

(** The transport object [self.com] comes from the base class
    [scpi.scpi_family], which is not part of the sources. *)
Module com.

(** Modelled from the spec: both operations of the transport fail with a
    communication error on link failure.  An operation uses up the next
    entry of [outages]; when that entry says the link fails, nothing is
    sent or read and the error is raised. *)
Definition attempt {A : Type} (op : M A) : M A :=
  fun w =>
    match outages w with
    | true :: later =>
        (Raise CommunicationError, mkLink (pending w) (log w) later)
    | false :: later => op (mkLink (pending w) (log w) later)
    | [] => op w
    end.

(** Modelled from the spec: [send(text)] of the transport, a blocking send
    of one command that fails with a communication error on link failure;
    a command that went out is recorded in the log. *)
Definition send (cmd : string) : M unit := attempt (emit (Send cmd)).

(** Modelled from the spec: [readline()] of the transport, a blocking read
    that returns one line or fails with a communication error, on link
    failure or when there is no line to read; it hands out the next
    pending line. *)
Definition readline : M string :=
  attempt
    (fun w =>
       match pending w with
       | [] => (Raise CommunicationError, w)
       | line :: rest =>
           (Return line, mkLink rest (log w ++ [Readline line]) (outages w))
       end).

End com.

Module time.

(** [time.sleep(secs)] *)
Definition sleep (secs : Z) : M unit := emit (Sleep secs).

End time.

(** ** [class E4418] *)

Module E4418.

Local Open Scope py_scope.

(** [error_query(self)] *)
Definition error_query : M (Z * string) :=
  com.send "SYST:ERR?" ;;
  ret <- com.readline ;;
  let ret := Py.split (Py.strip ret) "," in
  ret0 <- lift (Py.getitem ret 0) ;;
  err_num <- lift (Py.int ret0) ;;
  ret1 <- lift (Py.getitem ret 1) ;;
  let err_msg := Py.strip_chars ret1 DQ in
  pure (err_num, err_msg).

(** [_error_check(self)] *)
Definition _error_check : M unit :=
  '(err_num, err_msg) <- error_query ;;
  lift (error_handler.check err_num err_msg).

(** [zeroing(self, ch=1)] *)
Definition zeroing (ch : Z) : M unit :=
  com.send ("CAL" ++ Py.fmt_d ch ++ ":ZERO:AUTO ONCE") ;;
  _error_check ;;
  time.sleep 10 ;;
  _error_check.

End E4418.

(** ** Derived notions used in the statements *)

(** The catalog search that [check] performs, on its own: the first entry
    whose message equals [message]. *)
Definition lookup (message : string) : option error_item.t :=
  find (fun e => String.eqb message (error_item.msg e)) error_handler.error_list.

(** The catalog entry for "Illegal parameter value", the thirtieth of
    [error_list]. *)
Definition entry_illegal_parameter : error_item.t :=
  nth 29 error_handler.error_list (error_item.init 0 EmptyString EmptyString).

(** What [error_query] returns when the instrument answers [line]. *)
Definition reply_of (line : string) : result (Z * string) :=
  fst (E4418.error_query (mkWorld [line] [])).

(** What [_error_check] does when the instrument answers [line]. *)
Definition check_reply (line : string) : result unit :=
  fst (E4418._error_check (mkWorld [line] [])).

(** The catalog entry whose message contains a comma, the forty-eighth of
    [error_list]. *)
Definition entry_both_inputs : error_item.t :=
  nth 47 error_handler.error_list (error_item.init 0 EmptyString EmptyString).

(** The first comma-separated field of the stripped line, [ret[0]]. *)
Definition field0 (line : string) : string :=
  hd EmptyString (Py.split (Py.strip line) ",").

(** [s.count(c)] *)
Fixpoint count (s : string) (c : ascii) : nat :=
  match s with
  | EmptyString => O
  | String d s' => if Ascii.eqb d c then S (count s' c) else count s' c
  end.

(** All characters of [s] satisfy [p]. *)
Fixpoint all_chars (p : ascii -> bool) (s : string) : bool :=
  match s with
  | EmptyString => true
  | String c s' => (p c && all_chars p s')%bool
  end.

(** [c] is one of the characters 0..9. *)
Definition is_digit (c : ascii) : bool :=
  let n := nat_of_ascii c in (Nat.leb 48 n && Nat.leb n 57)%bool.

(** [c] is a digit or the minus sign: the characters of ['%d' % n]. *)
Definition is_numeric (c : ascii) : bool :=
  (is_digit c || Ascii.eqb c "-")%bool.

(** [c] is the double quote. *)
Definition is_dquote (c : ascii) : bool := Ascii.eqb c "034".

(** [c] is neither a comma nor a double quote. *)
Definition is_plain (c : ascii) : bool :=
  negb (Ascii.eqb c "," || Ascii.eqb c "034")%bool.

(** The world after [error_query] has consumed [line]. *)
Definition after_query (line : string) (rest : list string) (lg : list event) : world :=
  mkWorld rest (lg ++ [Send "SYST:ERR?"; Readline line]).

(** No two entries of a list of strings are equal. *)
Fixpoint distinct (l : list string) : bool :=
  match l with
  | [] => true
  | x :: l' => (negb (existsb (String.eqb x) l') && distinct l')%bool
  end.

(** The events of a log that are waits. *)
Definition is_sleep (ev : event) : bool :=
  match ev with
  | Sleep _ => true
  | _ => false
  end.

(** * Properties *)

(** ** Strings *)

Section Strings.

Lemma append_nil_r (s : string) : s ++ EmptyString = s.
Proof. induction s as [|c s IH]; simpl; [reflexivity | now rewrite IH]. Qed.

Lemma append_assoc (a b c : string) : (a ++ b) ++ c = a ++ b ++ c.
Proof. induction a as [|x a IH]; simpl; [reflexivity | now rewrite IH]. Qed.

Lemma append_length (a b : string) :
  String.length (a ++ b) = (String.length a + String.length b)%nat.
Proof. induction a as [|x a IH]; simpl; [reflexivity | now rewrite IH]. Qed.

Lemma append_cancel_l (a b c : string) : a ++ b = a ++ c -> b = c.
Proof.
  induction a as [|x a IH]; simpl; intros H; [exact H|].
  injection H as H. now apply IH.
Qed.

Lemma append_same_length (a a' b b' : string) :
  String.length a = String.length a' -> a ++ b = a' ++ b' -> a = a'.
Proof.
  revert a'. induction a as [|x a IH]; intros [|y a'] L H;
    try discriminate; [reflexivity|].
  simpl in *. injection H as -> H. injection L as L.
  f_equal. now apply IH.
Qed.

Lemma mul_length (s : string) (n : nat) :
  String.length (Py.mul s n) = (n * String.length s)%nat.
Proof.
  induction n as [|n IH]; simpl; [reflexivity|].
  now rewrite append_length, IH.
Qed.

Lemma all_chars_append (p : ascii -> bool) (a b : string) :
  all_chars p (a ++ b) = (all_chars p a && all_chars p b)%bool.
Proof.
  induction a as [|x a IH]; simpl; [reflexivity|].
  now rewrite IH, andb_assoc.
Qed.

Lemma all_chars_impl (p q : ascii -> bool) (s : string) :
  (forall c, p c = true -> q c = true) ->
  all_chars p s = true -> all_chars q s = true.
Proof.
  intros Hpq. induction s as [|c s IH]; simpl; [reflexivity|].
  intros H. apply andb_prop in H as [Hc Hs].
  now rewrite (Hpq c Hc), IH.
Qed.

Lemma count_append (a b : string) (c : ascii) :
  count (a ++ b) c = (count a c + count b c)%nat.
Proof.
  induction a as [|x a IH]; simpl; [reflexivity|].
  destruct (Ascii.eqb x c); simpl; now rewrite IH.
Qed.

Lemma count_zero (p : ascii -> bool) (s : string) (c : ascii) :
  p c = false -> all_chars p s = true -> count s c = O.
Proof.
  intros Hc. induction s as [|x s IH]; simpl; [reflexivity|].
  intros H. apply andb_prop in H as [Hx Hs].
  destruct (Ascii.eqb_spec x c) as [->|_]; [congruence | now apply IH].
Qed.

(** *** [lstrip], [rstrip], [strip] *)

Lemma lstrip_by_skip (p : ascii -> bool) (ws s : string) :
  all_chars p ws = true -> Py.lstrip_by p (ws ++ s) = Py.lstrip_by p s.
Proof.
  induction ws as [|c ws IH]; simpl; [reflexivity|].
  intros H. apply andb_prop in H as [Hc Hws]. now rewrite Hc, IH.
Qed.

Lemma lstrip_by_cons (p : ascii -> bool) (c : ascii) (s : string) :
  p c = false -> Py.lstrip_by p (String c s) = String c s.
Proof. intros H. simpl. now rewrite H. Qed.

Lemma rstrip_by_all (p : ascii -> bool) (ws : string) :
  all_chars p ws = true -> Py.rstrip_by p ws = EmptyString.
Proof.
  induction ws as [|c ws IH]; simpl; [reflexivity|].
  intros H. apply andb_prop in H as [Hc Hws]. now rewrite IH, Hc.
Qed.

Lemma rstrip_by_skip (p : ascii -> bool) (s ws : string) :
  all_chars p ws = true -> Py.rstrip_by p (s ++ ws) = Py.rstrip_by p s.
Proof.
  intros H. induction s as [|c s IH]; simpl.
  - now apply rstrip_by_all.
  - now rewrite IH.
Qed.

Lemma rstrip_by_last (p : ascii -> bool) (s : string) (c : ascii) :
  p c = false ->
  Py.rstrip_by p (s ++ String c EmptyString) = s ++ String c EmptyString.
Proof.
  intros Hc. induction s as [|x s IH]; simpl.
  - now rewrite Hc.
  - rewrite IH. now destruct s.
Qed.

Lemma count_lstrip_by (p : ascii -> bool) (s : string) (c : ascii) :
  p c = false -> count (Py.lstrip_by p s) c = count s c.
Proof.
  intros Hc. induction s as [|x s IH]; simpl; [reflexivity|].
  destruct (p x) eqn:Hx; [|reflexivity].
  destruct (Ascii.eqb_spec x c) as [->|_]; [congruence | exact IH].
Qed.

Lemma count_rstrip_by (p : ascii -> bool) (s : string) (c : ascii) :
  p c = false -> count (Py.rstrip_by p s) c = count s c.
Proof.
  intros Hc. induction s as [|x s IH]; simpl; [reflexivity|].
  destruct (Py.rstrip_by p s) as [|y r] eqn:R.
  - simpl in IH. rewrite <- IH.
    destruct (p x) eqn:Hx; simpl.
    + destruct (Ascii.eqb_spec x c) as [->|_]; [congruence | reflexivity].
    + reflexivity.
  - change (count (String x (String y r)) c)
      with (if Ascii.eqb x c then S (count (String y r) c) else count (String y r) c).
    now rewrite IH.
Qed.

Lemma count_strip (s : string) (c : ascii) :
  Py.isspace c = false -> count (Py.strip s) c = count s c.
Proof.
  intros Hc. unfold Py.strip, Py.strip_by.
  now rewrite count_rstrip_by, count_lstrip_by.
Qed.

(** *** [split] *)

Lemma split_length (s : string) (sep : ascii) :
  List.length (Py.split s sep) = S (count s sep).
Proof.
  induction s as [|c s IH]; simpl; [reflexivity|].
  destruct (Ascii.eqb c sep); simpl; [now rewrite IH|].
  destruct (Py.split s sep); simpl in *; [discriminate | exact IH].
Qed.

Lemma split_no_sep (s : string) (sep : ascii) :
  count s sep = O -> Py.split s sep = [s].
Proof.
  induction s as [|c s IH]; simpl; [reflexivity|].
  destruct (Ascii.eqb c sep); [discriminate|].
  intros H. now rewrite (IH H).
Qed.

Lemma split_at_sep (a b : string) (sep : ascii) :
  count a sep = O ->
  Py.split (a ++ String sep b) sep = a :: Py.split b sep.
Proof.
  induction a as [|c a IH]; simpl.
  - now rewrite Ascii.eqb_refl.
  - destruct (Ascii.eqb c sep); [discriminate|].
    intros H. now rewrite (IH H).
Qed.

Lemma append_cancel_r (a b t : string) : a ++ t = b ++ t -> a = b.
Proof.
  intros H. apply (append_same_length a b t t); [|exact H].
  apply (f_equal String.length) in H. rewrite !append_length in H. lia.
Qed.

Lemma append_last_inj (a b : string) (c d : ascii) :
  a ++ String c EmptyString = b ++ String d EmptyString -> a = b /\ c = d.
Proof.
  revert b. induction a as [|x a IH]; intros [|y b] H; simpl in H.
  - injection H as ->. now split.
  - injection H as _ H. destruct b; discriminate.
  - injection H as _ H. destruct a; discriminate.
  - injection H as -> H. destruct (IH b H) as [-> ->]. now split.
Qed.

Lemma lstrip_by_all (p : ascii -> bool) (ws : string) :
  all_chars p ws = true -> Py.lstrip_by p ws = EmptyString.
Proof.
  intros H. rewrite <- (append_nil_r ws) at 1.
  now rewrite (lstrip_by_skip p ws EmptyString H).
Qed.

Lemma lstrip_by_app (p : ascii -> bool) (s t : string) :
  Py.lstrip_by p (s ++ t) =
  if all_chars p s then Py.lstrip_by p t else Py.lstrip_by p s ++ t.
Proof.
  induction s as [|c s IH]; simpl; [reflexivity|].
  destruct (p c); simpl; [exact IH | reflexivity].
Qed.

Lemma strip_by_padded (p : ascii -> bool) (ws1 s ws2 : string) :
  all_chars p ws1 = true -> all_chars p ws2 = true ->
  Py.strip_by p (ws1 ++ s ++ ws2) = Py.strip_by p s.
Proof.
  intros H1 H2. unfold Py.strip_by.
  rewrite (lstrip_by_skip p ws1 _ H1), lstrip_by_app.
  destruct (all_chars p s) eqn:A.
  - now rewrite (lstrip_by_all p ws2 H2), (lstrip_by_all p s A).
  - now apply rstrip_by_skip.
Qed.

Lemma lstrip_by_head (p : ascii -> bool) (s r : string) (c : ascii) :
  Py.lstrip_by p s = String c r -> p c = false.
Proof.
  induction s as [|x s IH]; simpl; [discriminate|].
  destruct (p x) eqn:Hx; [exact IH|].
  intros H. injection H as <- _. exact Hx.
Qed.

Lemma rstrip_by_head (p : ascii -> bool) (s r : string) (c : ascii) :
  Py.rstrip_by p s = String c r -> exists s', s = String c s'.
Proof.
  destruct s as [|x s]; simpl; [discriminate|].
  destruct (Py.rstrip_by p s); [destruct (p x)|]; intros H;
    try discriminate; injection H as <- _; now exists s.
Qed.

Lemma rstrip_by_last_char (p : ascii -> bool) (s r : string) (c : ascii) :
  Py.rstrip_by p s = r ++ String c EmptyString -> p c = false.
Proof.
  revert r. induction s as [|x s IH]; intros r; simpl.
  - destruct r; discriminate.
  - destruct (Py.rstrip_by p s) as [|y t] eqn:R.
    + destruct (p x) eqn:Hx; [destruct r; discriminate|].
      intros H. destruct r as [|z r]; simpl in H.
      * injection H as <-. exact Hx.
      * injection H as _ H. destruct r; discriminate.
    + intros H. destruct r as [|z r]; simpl in H; [discriminate|].
      injection H as _ H. exact (IH r H).
Qed.

Lemma split_fields_no_sep (s : string) (sep : ascii) :
  Forall (fun f => count f sep = O) (Py.split s sep).
Proof.
  induction s as [|c s IH]; simpl.
  - repeat constructor.
  - destruct (Ascii.eqb c sep) eqn:E.
    + constructor; [reflexivity | exact IH].
    + destruct (Py.split s sep) as [|f fs].
      * repeat constructor. simpl. now rewrite E.
      * inversion IH as [|? ? Hf Hfs]; subst.
        constructor; [|exact Hfs]. simpl. now rewrite E.
Qed.

(** The first field of [split] and what follows it in the string. *)
Lemma split_head (s : string) (sep : ascii) (f : string) (fs : list string) :
  Py.split s sep = f :: fs ->
  match fs with
  | [] => s = f
  | _ :: _ => exists s', s = f ++ String sep s' /\ Py.split s' sep = fs
  end.
Proof.
  revert f fs. induction s as [|c s IH]; intros f fs; simpl.
  - intros H. injection H as <- <-. reflexivity.
  - destruct (Ascii.eqb_spec c sep) as [->|_].
    + intros H. injection H as <- <-.
      pose proof (split_length s sep) as L.
      destruct (Py.split s sep) as [|g gs] eqn:S; [discriminate L|].
      exists s. now split.
    + destruct (Py.split s sep) as [|g gs] eqn:S.
      * pose proof (split_length s sep) as L. rewrite S in L. discriminate L.
      * intros H. injection H as <- <-.
        specialize (IH g gs eq_refl). destruct gs as [|h gs].
        -- now rewrite IH.
        -- destruct IH as (s' & -> & S'). exists s'. now split.
Qed.

(** What [lstrip] and [rstrip] remove is made of the stripped characters. *)
Lemma lstrip_by_decomp (p : ascii -> bool) (s : string) :
  exists a, s = a ++ Py.lstrip_by p s /\ all_chars p a = true.
Proof.
  induction s as [|c s IH]; simpl.
  - now exists EmptyString.
  - destruct (p c) eqn:Hc.
    + destruct IH as (a & E & Ha). exists (String c a). simpl.
      rewrite Hc, Ha. split; [now rewrite <- E | reflexivity].
    + now exists EmptyString.
Qed.

Lemma rstrip_by_decomp (p : ascii -> bool) (s : string) :
  exists b, s = Py.rstrip_by p s ++ b /\ all_chars p b = true.
Proof.
  induction s as [|c s IH]; simpl.
  - now exists EmptyString.
  - destruct IH as (b & E & Hb).
    destruct (Py.rstrip_by p s) as [|y r] eqn:R.
    + simpl in E. subst b. destruct (p c) eqn:Hc.
      * exists (String c s). simpl. now rewrite Hc, Hb.
      * exists s. now split.
    + exists b. split; [|exact Hb]. simpl. f_equal. exact E.
Qed.

End Strings.

(** ** The catalog and [error_handler.check] *)

Section Catalog.

Import error_handler.

Lemma distinct_NoDup (l : list string) : distinct l = true -> NoDup l.
Proof.
  induction l as [|x l IH]; simpl; intros H; constructor.
  - apply andb_prop in H as [H _].
    intros Hin. apply negb_true_iff in H.
    assert (existsb (String.eqb x) l = true) as E.
    { apply existsb_exists. exists x. split; [exact Hin | apply String.eqb_refl]. }
    congruence.
  - apply IH. apply andb_prop in H. tauto.
Qed.

Lemma error_list_messages_distinct : NoDup (map error_item.msg error_list).
Proof. apply distinct_NoDup. vm_compute. reflexivity. Qed.

Lemma find_by_msg (l : list error_item.t) (e : error_item.t) :
  NoDup (map error_item.msg l) -> In e l ->
  find (fun x => String.eqb (error_item.msg e) (error_item.msg x)) l = Some e.
Proof.
  induction l as [|x l IH]; simpl; intros Hnd Hin; [contradiction|].
  inversion Hnd as [|? ? Hx Hl]; subst.
  destruct Hin as [->|Hin].
  - now rewrite String.eqb_refl.
  - destruct (String.eqb_spec (error_item.msg e) (error_item.msg x)) as [E|_].
    + exfalso. apply Hx. rewrite <- E. now apply in_map.
    + now apply IH.
Qed.

Lemma check_for_find (msg : string) (l : list error_item.t) :
  check_for msg l =
  option_map (fun e => StandardError (matched_text e))
             (find (fun e => String.eqb msg (error_item.msg e)) l).
Proof.
  induction l as [|x l IH]; simpl; [reflexivity|].
  now destruct (String.eqb msg (error_item.msg x)).
Qed.

Lemma check_for_lookup (msg : string) :
  check_for msg error_list =
  option_map (fun e => StandardError (matched_text e)) (lookup msg).
Proof. apply check_for_find. Qed.

Lemma lookup_Some (msg : string) (e : error_item.t) :
  lookup msg = Some e -> In e error_list /\ error_item.msg e = msg.
Proof.
  unfold lookup. intros H. apply find_some in H as [Hin Heq].
  split; [exact Hin|]. symmetry. now apply String.eqb_eq.
Qed.

Lemma lookup_None (msg : string) :
  lookup msg = None <-> (forall e, In e error_list -> error_item.msg e <> msg).
Proof.
  unfold lookup. split.
  - intros H e Hin E.
    pose proof (find_none _ _ H e Hin) as F. simpl in F.
    rewrite E, String.eqb_refl in F. discriminate.
  - intros H.
    destruct (find _ error_list) as [e|] eqn:F; [|reflexivity].
    apply find_some in F as [Hin Heq].
    apply String.eqb_eq in Heq. exfalso. now apply (H e Hin).
Qed.

Lemma check_nonzero (num : Z) (msg : string) :
  num <> 0 ->
  check num msg =
  match lookup msg with
  | Some e => Raise (StandardError (matched_text e))
  | None => Raise (StandardError (unmatched_text num msg))
  end.
Proof.
  intros Hn. unfold check.
  destruct (Z.eqb_spec num 0) as [?|_]; [contradiction|].
  rewrite check_for_lookup. now destruct (lookup msg).
Qed.

(** A boolean test for "no entry has this message", to evaluate on a
    concrete message. *)
Lemma no_entry_by_eval (msg : string) :
  forallb (fun e => negb (String.eqb (error_item.msg e) msg)) error_list = true ->
  forall e, In e error_list -> error_item.msg e <> msg.
Proof.
  intros H e Hin E. rewrite forallb_forall in H.
  specialize (H e Hin). rewrite E, String.eqb_refl in H. discriminate.
Qed.

End Catalog.

(** ** Decimal formatting and [int()] *)

Section Decimal.

Lemma string_of_uint_digits (d : uint) :
  all_chars is_digit (NilZero.string_of_uint d) = true.
Proof.
  assert (forall u, all_chars is_digit (NilEmpty.string_of_uint u) = true) as E.
  { induction u as [|u IH|u IH|u IH|u IH|u IH|u IH|u IH|u IH|u IH|u IH];
      simpl; try rewrite IH; reflexivity. }
  destruct d; try apply E. reflexivity.
Qed.

Lemma fmt_d_numeric (n : Z) : all_chars is_numeric (Py.fmt_d n) = true.
Proof.
  assert (forall d, all_chars is_numeric (NilZero.string_of_uint d) = true) as D.
  { intros d. apply all_chars_impl with (p := is_digit).
    - intros c Hc. unfold is_numeric. now rewrite Hc.
    - apply string_of_uint_digits. }
  unfold Py.fmt_d. destruct (Z.to_int n) as [d|d]; simpl; [apply D|].
  apply D.
Qed.

Lemma numeric_not_space (c : ascii) :
  is_numeric c = true -> Py.isspace c = false.
Proof.
  unfold is_numeric, is_digit, Py.isspace. intros H.
  apply orb_prop in H as [H|H].
  - apply andb_prop in H as [H1 H2].
    apply Nat.leb_le in H1. apply Nat.leb_le in H2.
    apply orb_false_iff. split.
    + apply Nat.eqb_neq. lia.
    + apply andb_false_iff. right. apply Nat.leb_gt. lia.
  - apply Ascii.eqb_eq in H. subst c. reflexivity.
Qed.

Lemma lstrip_by_id (p : ascii -> bool) (s : string) :
  all_chars (fun c => negb (p c)) s = true -> Py.lstrip_by p s = s.
Proof.
  destruct s as [|c s]; simpl; [reflexivity|].
  intros H. apply andb_prop in H as [H _].
  apply negb_true_iff in H. now rewrite H.
Qed.

Lemma rstrip_by_id (p : ascii -> bool) (s : string) :
  all_chars (fun c => negb (p c)) s = true -> Py.rstrip_by p s = s.
Proof.
  induction s as [|c s IH]; simpl; [reflexivity|].
  intros H. apply andb_prop in H as [Hc Hs].
  rewrite (IH Hs). apply negb_true_iff in Hc. rewrite Hc.
  now destruct s.
Qed.

Lemma strip_by_id (p : ascii -> bool) (s : string) :
  all_chars (fun c => negb (p c)) s = true -> Py.strip_by p s = s.
Proof.
  intros H. unfold Py.strip_by. rewrite (lstrip_by_id p s H).
  now apply rstrip_by_id.
Qed.

Lemma strip_fmt_d (n : Z) : Py.strip (Py.fmt_d n) = Py.fmt_d n.
Proof.
  apply strip_by_id. apply all_chars_impl with (p := is_numeric).
  - intros c Hc. now rewrite (numeric_not_space c Hc).
  - apply fmt_d_numeric.
Qed.

Lemma of_uint_to_uint (p : positive) : Z.of_uint (Pos.to_uint p) = Z.pos p.
Proof.
  unfold Z.of_uint. now rewrite DecimalPos.Unsigned.of_to.
Qed.

Lemma lstrip_digits (d : uint) :
  Py.lstrip_by Py.isspace (NilZero.string_of_uint d) = NilZero.string_of_uint d.
Proof.
  apply lstrip_by_id. apply all_chars_impl with (p := is_digit).
  - intros c Hc. apply negb_true_iff, numeric_not_space.
    unfold is_numeric. now rewrite Hc.
  - apply string_of_uint_digits.
Qed.

Lemma uint_literal (d : uint) :
  d <> Nil ->
  match NilZero.string_of_uint d with
  | String "+" r =>
      option_map Z.of_uint (NilZero.uint_of_string (Py.lstrip_by Py.isspace r))
  | String "-" r =>
      option_map (fun u => - Z.of_uint u)
        (NilZero.uint_of_string (Py.lstrip_by Py.isspace r))
  | r => option_map Z.of_uint (NilZero.uint_of_string r)
  end = Some (Z.of_uint d).
Proof.
  intros Hd.
  pose proof (NilZero.usu d Hd) as U.
  destruct d; [contradiction | ..]; simpl in *; now rewrite U.
Qed.

(** ['%d' % n] is a decimal literal that [int()] reads back as [n]. *)
Lemma int_literal_fmt_d (n : Z) : Py.int_literal (Py.fmt_d n) = Some n.
Proof.
  unfold Py.int_literal. rewrite strip_fmt_d.
  destruct n as [|p|p].
  - reflexivity.
  - unfold Py.fmt_d. simpl.
    rewrite uint_literal by apply Unsigned.to_uint_nonnil.
    now rewrite of_uint_to_uint.
  - unfold Py.fmt_d. simpl. rewrite lstrip_digits.
    rewrite (NilZero.usu _ (Unsigned.to_uint_nonnil p)). simpl.
    now rewrite of_uint_to_uint.
Qed.

Lemma fmt_d_inj (n n' : Z) : Py.fmt_d n = Py.fmt_d n' -> n = n'.
Proof.
  intros H. pose proof (int_literal_fmt_d n) as E.
  rewrite H, int_literal_fmt_d in E. congruence.
Qed.

(** A positive number is printed without a leading zero. *)
Lemma fmt_d_no_leading_zero (n : Z) (r : string) :
  0 < n -> Py.fmt_d n <> String "0" r.
Proof.
  destruct n as [|p|p]; try lia. intros _ H.
  unfold Py.fmt_d in H. simpl in H.
  pose proof (DecimalZ.to_of (Z.to_int (Z.pos p))) as N.
  rewrite DecimalZ.of_to in N. simpl in N.
  destruct (Pos.to_uint p) as [|u|u|u|u|u|u|u|u|u|u] eqn:E; try discriminate.
  injection N as N. rewrite unorm_D0 in N.
  destruct (uint_eq_dec u Nil) as [->|Hu].
  - exact (Unsigned.to_uint_nonzero p E).
  - pose proof (nb_digits_unorm u Hu) as L.
    rewrite <- N in L. simpl in L. lia.
Qed.

End Decimal.

(** ** Claims about [error_handler.check] *)

Section Check.

Import error_handler.

(** The text of the matched branch determines the code it was built with. *)
Lemma matched_format_code (m t : string) (n n' : Z) :
  matched_format m n t = matched_format m n' t -> n = n'.
Proof.
  unfold matched_format, Py.len. cbv zeta. intros E.
  assert (String.length (Py.fmt_d n) = String.length (Py.fmt_d n')) as L.
  { apply (f_equal String.length) in E.
    repeat rewrite ?append_length, ?mul_length in E. simpl in E. lia. }
  repeat rewrite append_assoc in E.
  repeat rewrite append_length in E. rewrite L in E.
  do 6 apply append_cancel_l in E.
  apply fmt_d_inj. exact (append_same_length _ _ _ _ L E).
Qed.

(** C1, as the code has it: when the message equals that of a catalog
    entry [e] and the reported code is not zero, [check] raises the text
    formatted from [e.msg], [e.num] and [e.txt]: the code shown is the one
    stored in the catalog.  The text is the one the reported code would
    give only when the two codes are equal. *)
Theorem check_matched_shows_catalog_code (num : Z) (e : error_item.t) :
  num <> 0 -> In e error_list ->
  check num (error_item.msg e) =
    Raise (StandardError
             (matched_format (error_item.msg e) (error_item.num e) (error_item.txt e)))
  /\ (check num (error_item.msg e) =
        Raise (StandardError
                 (matched_format (error_item.msg e) num (error_item.txt e)))
      <-> num = error_item.num e).
Proof.
  intros Hn Hin.
  assert (check num (error_item.msg e) = Raise (StandardError (matched_text e))) as E.
  { rewrite (check_nonzero _ _ Hn). unfold lookup.
    now rewrite (find_by_msg _ _ error_list_messages_distinct Hin). }
  split; [exact E|]. rewrite E. unfold matched_text. split.
  - intros H. symmetry.
    apply (matched_format_code (error_item.msg e) (error_item.txt e)).
    congruence.
  - now intros ->.
Qed.

(** C3: looking up the message of a catalog entry finds that very entry,
    and [check] with that message and a non-zero code raises the text of
    that entry. *)
Theorem lookup_entry_message (e : error_item.t) (num : Z) :
  In e error_list -> num <> 0 ->
  lookup (error_item.msg e) = Some e
  /\ check num (error_item.msg e) = Raise (StandardError (matched_text e)).
Proof.
  intros Hin Hn.
  assert (lookup (error_item.msg e) = Some e) as L.
  { unfold lookup. exact (find_by_msg _ _ error_list_messages_distinct Hin). }
  split; [exact L|]. now rewrite (check_nonzero _ _ Hn), L.
Qed.


(** C7: a non-zero code with a message that the catalog lookup does not
    find raises a [StandardError] whose text is the banner, a line of
    stars, the raw message with the code in parentheses, and the line of
    stars again; no detail text follows. *)
Theorem check_unknown_message (num : Z) (msg : string) :
  num <> 0 -> lookup msg = None ->
  exists stars,
    stars = Py.mul "*" (String.length msg + String.length (Py.fmt_d num) + 4)
    /\ check num msg =
       Raise (StandardError
                ("Power meter returned Error message." ++ LF
                 ++ stars ++ LF
                 ++ msg ++ " (" ++ Py.fmt_d num ++ ")" ++ LF
                 ++ stars ++ LF)).
Proof.
  intros Hn L. eexists. split; [reflexivity|].
  rewrite (check_nonzero _ _ Hn), L. do 2 f_equal.
  unfold unmatched_text, Py.len. cbv zeta.
  repeat rewrite append_length. simpl String.length.
  replace (String.length msg + (2 + (String.length (Py.fmt_d num) + (1 + 1))))%nat
    with (String.length msg + String.length (Py.fmt_d num) + 4)%nat by lia.
  now repeat rewrite append_assoc.
Qed.

Lemma unmatched_text_explicit (num : Z) (msg : string) :
  unmatched_text num msg =
  "Power meter returned Error message." ++ LF
  ++ Py.mul "*" (String.length msg + String.length (Py.fmt_d num) + 4) ++ LF
  ++ msg ++ " (" ++ Py.fmt_d num ++ ")" ++ LF
  ++ Py.mul "*" (String.length msg + String.length (Py.fmt_d num) + 4) ++ LF.
Proof.
  unfold unmatched_text, Py.len. cbv zeta.
  repeat rewrite append_length. simpl String.length.
  replace (String.length msg + (2 + (String.length (Py.fmt_d num) + (1 + 1))))%nat
    with (String.length msg + String.length (Py.fmt_d num) + 4)%nat by lia.
  now repeat rewrite append_assoc.
Qed.

(** C10: the comparison with the catalog is equality of the whole string:
    when the message differs from the message of every entry, the loop
    finds nothing and [check] raises the fallback text, which carries the
    message as it came: the banner, a line of stars, the raw message with
    the code in parentheses, and the line of stars again. *)
Theorem check_exact_match_only (num : Z) (msg : string) :
  num <> 0 ->
  (forall e, In e error_list -> error_item.msg e <> msg) ->
  check_for msg error_list = None
  /\ check num msg = Raise (StandardError (unmatched_text num msg))
  /\ exists stars,
       stars = Py.mul "*" (String.length msg + String.length (Py.fmt_d num) + 4)
       /\ check num msg =
          Raise (StandardError
                   ("Power meter returned Error message." ++ LF
                    ++ stars ++ LF
                    ++ msg ++ " (" ++ Py.fmt_d num ++ ")" ++ LF
                    ++ stars ++ LF)).
Proof.
  intros Hn H. apply lookup_None in H.
  assert (check num msg = Raise (StandardError (unmatched_text num msg))) as C
    by now rewrite (check_nonzero _ _ Hn), H.
  split; [now rewrite check_for_lookup, H|]. split; [exact C|].
  eexists. split; [reflexivity|].
  now rewrite C, unmatched_text_explicit.
Qed.

End Check.

(** ** [E4418.error_query] *)

Section ErrorQuery.

Import error_handler.

(** One call sends [SYST:ERR?], reads the next line and returns what the
    fields of the stripped line give. *)
Lemma error_query_fields (line : string) (rest : list string) (lg : list event) :
  E4418.error_query (mkWorld (line :: rest) lg) =
  (match Py.split (Py.strip line) "," with
   | [] => Raise IndexError
   | f0 :: fs =>
       match Py.int_literal f0 with
       | None => Raise (ValueError f0)
       | Some n =>
           match fs with
           | [] => Raise IndexError
           | f1 :: _ => Return (n, Py.strip_chars f1 DQ)
           end
       end
   end, after_query line rest lg).
Proof.
  unfold E4418.error_query, after_query, bind, com.send, com.readline, emit,
    lift, pure, Py.getitem, Py.int.
  simpl. rewrite <- List.app_assoc. simpl.
  destruct (Py.split (Py.strip line) ",") as [|f0 fs]; simpl; [reflexivity|].
  destruct (Py.int_literal f0); [|reflexivity].
  now destruct fs.
Qed.

Lemma error_query_reply (line : string) (rest : list string) (lg : list event) :
  E4418.error_query (mkWorld (line :: rest) lg) =
  (reply_of line, after_query line rest lg).
Proof.
  unfold reply_of. now rewrite !error_query_fields.
Qed.

Lemma error_check_reply (line : string) (rest : list string) (lg : list event) :
  E4418._error_check (mkWorld (line :: rest) lg) =
  (match reply_of line with
   | Return (n, m) => error_handler.check n m
   | Raise e => Raise e
   end, after_query line rest lg).
Proof.
  unfold E4418._error_check, bind, lift. rewrite error_query_reply.
  now destruct (reply_of line) as [[n m]|e].
Qed.

Lemma comma_not_space : Py.isspace "," = false.
Proof. reflexivity. Qed.

Lemma field0_no_comma (line : string) :
  count line "," = O -> Py.split (Py.strip line) "," = [Py.strip line].
Proof.
  intros H. apply split_no_sep. now rewrite (count_strip _ _ comma_not_space).
Qed.

Lemma reply_of_fields (line : string) :
  reply_of line =
  match Py.split (Py.strip line) "," with
  | [] => Raise IndexError
  | f0 :: fs =>
      match Py.int_literal f0 with
      | None => Raise (ValueError f0)
      | Some n =>
          match fs with
          | [] => Raise IndexError
          | f1 :: _ => Return (n, Py.strip_chars f1 DQ)
          end
      end
  end.
Proof. unfold reply_of. now rewrite error_query_fields. Qed.

Lemma reply_of_Return (line : string) (n : Z) (m : string) :
  reply_of line = Return (n, m) ->
  exists f0 f1 more,
    Py.split (Py.strip line) "," = f0 :: f1 :: more
    /\ Py.int_literal f0 = Some n /\ m = Py.strip_chars f1 DQ.
Proof.
  rewrite reply_of_fields.
  destruct (Py.split (Py.strip line) ",") as [|f0 [|f1 more]];
    try discriminate; destruct (Py.int_literal f0) as [k|] eqn:I;
    try discriminate.
  intros H. injection H as <- <-. now exists f0, f1, more.
Qed.

Lemma reply_of_Raise (line : string) (e : exn) :
  reply_of line = Raise e -> e = IndexError \/ exists s, e = ValueError s.
Proof.
  rewrite reply_of_fields.
  destruct (Py.split (Py.strip line) ",") as [|f0 [|f1 more]];
    try destruct (Py.int_literal f0); intros H; try discriminate;
    injection H as <-; eauto.
Qed.

Lemma reply_of_malformed (line : string) :
  count line "," = O \/ Py.int_literal (field0 line) = None ->
  reply_of line =
  Raise (match Py.int_literal (field0 line) with
         | None => ValueError (field0 line)
         | Some _ => IndexError
         end).
Proof.
  intros H. rewrite reply_of_fields. unfold field0 in *.
  destruct (Py.split (Py.strip line) ",") as [|f0 fs] eqn:S.
  - pose proof (split_length (Py.strip line) ",") as L.
    rewrite S in L. discriminate.
  - simpl in *. destruct (Py.int_literal f0) as [n|] eqn:I; [|reflexivity].
    destruct H as [H|H]; [|discriminate].
    rewrite (field0_no_comma _ H) in S. injection S as _ <-. reflexivity.
Qed.

Lemma check_reply_eq (line : string) :
  check_reply line =
  match reply_of line with
  | Return (n, m) => check n m
  | Raise e => Raise e
  end.
Proof. unfold check_reply. now rewrite error_check_reply. Qed.

Lemma error_check_outcome (line : string) (rest : list string) (lg : list event) :
  E4418._error_check (mkWorld (line :: rest) lg) =
  (check_reply line, after_query line rest lg).
Proof. now rewrite error_check_reply, check_reply_eq. Qed.

Lemma check_reply_passes (line : string) :
  check_reply line = Return tt <-> exists m, reply_of line = Return (0, m).
Proof.
  rewrite check_reply_eq. destruct (reply_of line) as [[n m]|e].
  - split.
    + intros H. destruct (Z.eq_dec n 0) as [->|Hn]; [now exists m|].
      rewrite (check_nonzero _ _ Hn) in H. destruct (lookup m); discriminate.
    + intros [m' H]. injection H as -> _. reflexivity.
  - split; [discriminate | intros [m' H]; discriminate].
Qed.

(** C2, as the code has it: when the reply contains no comma, or its first
    field is not an integer literal, [error_query] raises after one send
    and one read.  The exception is the built-in one of the failing
    operation: [ValueError] from [int()] when the first field is not an
    integer (this is tested first), [IndexError] from [ret[1]] when it is
    an integer and there is no second field. *)
Theorem error_query_malformed (line : string) (rest : list string) (lg : list event) :
  count line "," = O \/ Py.int_literal (field0 line) = None ->
  E4418.error_query (mkWorld (line :: rest) lg) =
  (Raise (match Py.int_literal (field0 line) with
          | None => ValueError (field0 line)
          | Some _ => IndexError
          end), after_query line rest lg).
Proof.
  intros H. rewrite error_query_fields. unfold field0 in *.
  destruct (Py.split (Py.strip line) ",") as [|f0 fs] eqn:S.
  - pose proof (split_length (Py.strip line) ",") as L.
    rewrite S in L. discriminate.
  - simpl in *. destruct (Py.int_literal f0) as [n|] eqn:I; [|reflexivity].
    destruct H as [H|H]; [|discriminate].
    rewrite (field0_no_comma _ H) in S. injection S as _ <-. reflexivity.
Qed.

(** C9: when the reply contains a comma and the first field of the
    stripped line is an integer literal, [error_query] returns that integer
    and a message [m] taken from the second field: the stripped line is
    the first field, a comma, the second field and then nothing or a comma
    and more, neither field holds a comma, and the second field is [m]
    between two runs of double quotes, with [m] neither beginning nor
    ending with a double quote.  Whatever follows the second field is not
    looked at and raises nothing. *)
Theorem error_query_two_fields (line : string) (rest : list string)
    (lg : list event) (n : Z) :
  (1 <= count line ",")%nat -> Py.int_literal (field0 line) = Some n ->
  exists f1 more tl m qa qb,
    Py.split (Py.strip line) "," = field0 line :: f1 :: more
    /\ Py.strip line = field0 line ++ "," ++ f1 ++ tl
    /\ (tl = EmptyString \/ exists t, tl = "," ++ t)
    /\ count (field0 line) "," = O /\ count f1 "," = O
    /\ f1 = qa ++ m ++ qb
    /\ all_chars is_dquote qa = true /\ all_chars is_dquote qb = true
    /\ (forall r, m <> DQ ++ r) /\ (forall r, m <> r ++ DQ)
    /\ E4418.error_query (mkWorld (line :: rest) lg) =
       (Return (n, m), after_query line rest lg).
Proof.
  intros Hc Hi. rewrite error_query_fields. unfold field0 in *.
  pose proof (split_length (Py.strip line) ",") as L.
  rewrite (count_strip _ _ comma_not_space) in L.
  pose proof (split_fields_no_sep (Py.strip line) ",") as F.
  destruct (Py.split (Py.strip line) ",") as [|f0 [|f1 more]] eqn:S;
    simpl in *; try lia.
  inversion F as [|? ? K0 F1]; subst. inversion F1 as [|? ? K1 _]; subst.
  apply split_head in S as (s' & E & S').
  assert (exists tl, s' = f1 ++ tl
                     /\ (tl = EmptyString \/ exists t, tl = "," ++ t)) as T.
  { apply split_head in S'. destruct more as [|g more].
    - exists EmptyString. rewrite append_nil_r. now split; [|left].
    - destruct S' as (t & -> & _). exists ("," ++ t). split; [reflexivity|].
      right. now exists t. }
  destruct T as (tl & -> & Htl).
  set (q := fun c : ascii => Py.mem c DQ).
  assert (forall x, q x = true -> is_dquote x = true) as Q.
  { intros x Hx. unfold q in Hx. simpl in Hx.
    now rewrite orb_false_r in Hx. }
  assert (forall x, q x = false -> x <> "034"%char) as Q'.
  { intros x Hx ->. discriminate Hx. }
  destruct (lstrip_by_decomp q f1) as (qa & Ea & Ha).
  destruct (rstrip_by_decomp q (Py.lstrip_by q f1)) as (qb & Eb & Hb).
  exists f1, more, tl, (Py.strip_chars f1 DQ), qa, qb.
  unfold Py.strip_chars, Py.strip_by. fold q.
  repeat split; try assumption.
  - now rewrite <- Eb.
  - exact (all_chars_impl q is_dquote qa Q Ha).
  - exact (all_chars_impl q is_dquote qb Q Hb).
  - intros r H. simpl in H.
    destruct (rstrip_by_head q _ _ _ H) as [t Ht].
    apply lstrip_by_head in Ht. now apply (Q' _ Ht).
  - intros r H. apply rstrip_by_last_char in H. now apply (Q' _ H).
  - now rewrite Hi.
Qed.

(** A quoted message without quotes of its own loses exactly the two
    quotes around it. *)
Lemma strip_quoted (m : string) :
  all_chars is_plain m = true ->
  Py.strip_chars (DQ ++ m ++ DQ) DQ = m.
Proof.
  intros Hm. unfold Py.strip_chars, Py.strip_by.
  set (q := fun c : ascii => Py.mem c DQ).
  assert (all_chars q DQ = true) as HQ by reflexivity.
  assert (all_chars (fun c => negb (q c)) m = true) as Hq.
  { apply all_chars_impl with (p := is_plain); [|exact Hm].
    intros c Hc. unfold q, is_plain in *. simpl.
    apply negb_true_iff in Hc. apply orb_false_iff in Hc as [_ Hc].
    now rewrite Hc. }
  rewrite (lstrip_by_skip q DQ (m ++ DQ) HQ).
  destruct m as [|c m].
  - reflexivity.
  - change (String c m ++ DQ) with (String c (m ++ DQ)).
    rewrite lstrip_by_cons.
    + change (String c (m ++ DQ)) with (String c m ++ DQ).
      rewrite (rstrip_by_skip q _ DQ HQ). now apply rstrip_by_id.
    + simpl in Hq. apply andb_prop in Hq as [Hc _].
      now apply negb_true_iff in Hc.
Qed.

Lemma fmt_d_cons (n : Z) :
  exists c r, Py.fmt_d n = String c r /\ Py.isspace c = false.
Proof.
  pose proof (fmt_d_numeric n) as H. pose proof (int_literal_fmt_d n) as I.
  destruct (Py.fmt_d n) as [|c r]; [discriminate|].
  exists c, r. split; [reflexivity|].
  simpl in H. apply andb_prop in H as [H _]. now apply numeric_not_space.
Qed.

Lemma strip_fmt_d_padded (n : Z) (ws : string) :
  all_chars Py.isspace ws = true -> Py.strip (Py.fmt_d n ++ ws) = Py.fmt_d n.
Proof.
  intros Hws. unfold Py.strip, Py.strip_by.
  destruct (fmt_d_cons n) as (c & r & E & Hc).
  rewrite E at 1. change (String c r ++ ws) with (String c (r ++ ws)).
  rewrite (lstrip_by_cons _ _ _ Hc).
  change (String c (r ++ ws)) with (String c r ++ ws). rewrite <- E.
  rewrite (rstrip_by_skip _ _ _ Hws).
  apply rstrip_by_id. apply all_chars_impl with (p := is_numeric).
  - intros x Hx. now rewrite (numeric_not_space x Hx).
  - apply fmt_d_numeric.
Qed.

Lemma int_literal_padded (n : Z) (ws : string) :
  all_chars Py.isspace ws = true -> Py.int_literal (Py.fmt_d n ++ ws) = Some n.
Proof.
  intros Hws. rewrite <- (int_literal_fmt_d n). unfold Py.int_literal.
  now rewrite (strip_fmt_d_padded n ws Hws), strip_fmt_d.
Qed.

Lemma strip_reply (n : Z) (ws1 ws2 body : string) :
  all_chars Py.isspace ws1 = true -> all_chars Py.isspace ws2 = true ->
  Py.strip (ws1 ++ (Py.fmt_d n ++ body ++ DQ) ++ ws2) = Py.fmt_d n ++ body ++ DQ.
Proof.
  intros H1 H2. unfold Py.strip, Py.strip_by.
  rewrite (lstrip_by_skip _ _ _ H1).
  destruct (fmt_d_cons n) as (c & r & E & Hc).
  rewrite E.
  change ((String c r ++ body ++ DQ) ++ ws2)
    with (String c ((r ++ body ++ DQ) ++ ws2)).
  rewrite (lstrip_by_cons _ _ _ Hc).
  change (String c ((r ++ body ++ DQ) ++ ws2))
    with ((String c r ++ body ++ DQ) ++ ws2).
  rewrite (rstrip_by_skip _ _ _ H2).
  rewrite <- !append_assoc. now apply rstrip_by_last.
Qed.

(** C6, as the code has it: one call sends [SYST:ERR?] and reads one line;
    for a reply made of a decimal code, a comma and a message in double
    quotes (the message without comma or double quote), with any
    whitespace before the code, between the code and the comma and after
    the closing quote, it returns the code and the message, the message
    exactly as it stands between the quotes. *)
Theorem error_query_wire_format (n : Z) (m ws1 ws2 ws3 : string)
    (rest : list string) (lg : list event) :
  all_chars Py.isspace ws1 = true ->
  all_chars Py.isspace ws2 = true ->
  all_chars Py.isspace ws3 = true ->
  all_chars is_plain m = true ->
  E4418.error_query
    (mkWorld ((ws1 ++ Py.fmt_d n ++ ws3 ++ "," ++ DQ ++ m ++ DQ ++ ws2) :: rest) lg) =
  (Return (n, m),
   after_query (ws1 ++ Py.fmt_d n ++ ws3 ++ "," ++ DQ ++ m ++ DQ ++ ws2) rest lg).
Proof.
  intros H1 H2 H3 Hm. rewrite error_query_fields.
  replace (ws1 ++ Py.fmt_d n ++ ws3 ++ "," ++ DQ ++ m ++ DQ ++ ws2)
    with (ws1 ++ (Py.fmt_d n ++ (ws3 ++ "," ++ DQ ++ m) ++ DQ) ++ ws2)
    by (now repeat rewrite append_assoc).
  rewrite (strip_reply n ws1 ws2 _ H1 H2).
  replace (Py.fmt_d n ++ (ws3 ++ "," ++ DQ ++ m) ++ DQ)
    with ((Py.fmt_d n ++ ws3) ++ String "," (DQ ++ m ++ DQ))
    by (now repeat rewrite append_assoc).
  rewrite split_at_sep.
  - rewrite split_no_sep.
    + rewrite (int_literal_padded n ws3 H3). now rewrite (strip_quoted m Hm).
    + rewrite !count_append.
      now rewrite (count_zero is_plain m "," eq_refl Hm).
  - rewrite count_append.
    rewrite (count_zero is_numeric _ "," eq_refl (fmt_d_numeric n)).
    now rewrite (count_zero Py.isspace ws3 "," eq_refl H3).
Qed.

(** C8: when the instrument answers [-224,"Illegal parameter value"],
    [_error_check] raises the [StandardError] of the catalog entry with
    that message. *)
Theorem error_check_illegal_parameter (rest : list string) (lg : list event) :
  E4418._error_check
    (mkWorld (("-224," ++ DQ ++ "Illegal parameter value" ++ DQ) :: rest) lg) =
  (Raise (StandardError
            ("Power meter returned Error message." ++ LF
             ++ "******************************" ++ LF
             ++ "Illegal parameter value (-224)" ++ LF
             ++ "******************************" ++ LF
             ++ "A discrete parameter was received which was not a valid choice for the command. You may have used an invalid parameter choice. For example, TRIG:SOUR EXT." ++ LF)),
   after_query ("-224," ++ DQ ++ "Illegal parameter value" ++ DQ) rest lg).
Proof.
  rewrite error_check_reply. f_equal.
Qed.

End ErrorQuery.

(** ** [E4418.zeroing] *)

Section Zeroing.

Import error_handler.

Lemma send_up (cmd : string) (p : list string) (lg : list event) :
  com.send cmd (mkWorld p lg) = (Return tt, mkWorld p (lg ++ [Send cmd])).
Proof. reflexivity. Qed.

Lemma sleep_up (secs : Z) (p : list string) (lg : list event) :
  time.sleep secs (mkWorld p lg) = (Return tt, mkWorld p (lg ++ [Sleep secs])).
Proof. reflexivity. Qed.

Lemma zeroing_steps (ch : Z) (l1 : string) (rest : list string)
    (lg : list event) :
  E4418.zeroing ch (mkWorld (l1 :: rest) lg) =
  match check_reply l1 with
  | Return _ =>
      E4418._error_check
        (mkWorld rest
           (lg ++ [Send ("CAL" ++ Py.fmt_d ch ++ ":ZERO:AUTO ONCE");
                   Send "SYST:ERR?"; Readline l1; Sleep 10]))
  | Raise e =>
      (Raise e,
       mkWorld rest
         (lg ++ [Send ("CAL" ++ Py.fmt_d ch ++ ":ZERO:AUTO ONCE");
                 Send "SYST:ERR?"; Readline l1]))
  end.
Proof.
  unfold E4418.zeroing, bind. rewrite send_up, error_check_outcome.
  unfold after_query.
  destruct (check_reply l1) as [[]|e]; [rewrite sleep_up|];
    now repeat (rewrite <- List.app_assoc; simpl).
Qed.

(** C5: [zeroing] sends [CAL<ch>:ZERO:AUTO ONCE] with the channel in
    decimal, whatever the channel; then it queries and checks the error
    once.  When that code is not zero it raises at once, whatever replies
    are still pending: nothing is slept and the later replies are left
    unread.  When that code is zero it sleeps 10 seconds and queries and
    checks once more, and the outcome is that of the second check: with
    a second reply pending, the outcome of [check] on it or the exception
    of its parse. *)
Theorem zeroing_sequence (ch : Z) (l1 : string) (rest : list string)
    (lg : list event) (n1 : Z) (m1 : string) :
  reply_of l1 = Return (n1, m1) ->
  E4418.zeroing ch (mkWorld (l1 :: rest) lg) =
    (if n1 =? 0
     then match rest with
          | [] =>
              E4418._error_check
                (mkWorld []
                   (lg ++ [Send ("CAL" ++ Py.fmt_d ch ++ ":ZERO:AUTO ONCE");
                           Send "SYST:ERR?"; Readline l1;
                           Sleep 10]))
          | l2 :: rest' =>
              (match reply_of l2 with
               | Return (n2, m2) => error_handler.check n2 m2
               | Raise e => Raise e
               end,
               mkWorld rest'
                 (lg ++ [Send ("CAL" ++ Py.fmt_d ch ++ ":ZERO:AUTO ONCE");
                         Send "SYST:ERR?"; Readline l1;
                         Sleep 10;
                         Send "SYST:ERR?"; Readline l2]))
          end
     else (error_handler.check n1 m1,
           mkWorld rest
             (lg ++ [Send ("CAL" ++ Py.fmt_d ch ++ ":ZERO:AUTO ONCE");
                     Send "SYST:ERR?"; Readline l1])))
  /\ Py.int_literal (Py.fmt_d ch) = Some ch
  /\ (forall r, 0 < ch -> Py.fmt_d ch <> String "0" r)
  /\ (n1 <> 0 ->
      (exists text,
          fst (E4418.zeroing ch (mkWorld (l1 :: rest) lg))
          = Raise (StandardError text))
      /\ filter is_sleep (log (snd (E4418.zeroing ch (mkWorld (l1 :: rest) lg))))
         = filter is_sleep lg).
Proof.
  intros R1.
  assert (E4418.zeroing ch (mkWorld (l1 :: rest) lg) =
          (if n1 =? 0
           then E4418._error_check
                  (mkWorld rest
                     (lg ++ [Send ("CAL" ++ Py.fmt_d ch ++ ":ZERO:AUTO ONCE");
                             Send "SYST:ERR?"; Readline l1; Sleep 10]))
           else (error_handler.check n1 m1,
                 mkWorld rest
                   (lg ++ [Send ("CAL" ++ Py.fmt_d ch ++ ":ZERO:AUTO ONCE");
                           Send "SYST:ERR?"; Readline l1])))) as Z.
  { rewrite zeroing_steps, check_reply_eq, R1.
    destruct (Z.eqb_spec n1 0) as [->|Hn]; [reflexivity|].
    rewrite (check_nonzero _ _ Hn). now destruct (lookup m1). }
  split.
  - rewrite Z. destruct (n1 =? 0); [|reflexivity].
    destruct rest as [|l2 rest'].
    + reflexivity.
    + rewrite error_check_reply. unfold after_query.
      now rewrite <- List.app_assoc.
  - split; [apply int_literal_fmt_d|].
    split; [intros r Hch; now apply fmt_d_no_leading_zero|].
    intros Hn. rewrite Z.
    destruct (Z.eqb_spec n1 0) as [?|_]; [contradiction|]. simpl. split.
    + rewrite (check_nonzero _ _ Hn). destruct (lookup m1); eexists; reflexivity.
    + rewrite filter_app. simpl. now rewrite List.app_nil_r.
Qed.

End Zeroing.

(** ** Concrete runs *)

Section Runs.

Import error_handler.

Example entry_illegal_parameter_fields :
  error_item.num entry_illegal_parameter = -224
  /\ error_item.msg entry_illegal_parameter = "Illegal parameter value".
Proof. split; reflexivity. Qed.

Lemma entry_illegal_parameter_In : In entry_illegal_parameter error_list.
Proof. apply (nth_error_In error_list 29). reflexivity. Defined.

(** The instrument's usual answer with an empty queue. *)
Example error_query_no_error :
  reply_of ("+0," ++ DQ ++ "No error" ++ DQ) = Return (0, "No error").
Proof. reflexivity. Qed.

(** Both checks pass: one command, one wait, two queries. *)
Example zeroing_success :
  E4418.zeroing 1
    (mkWorld ["+0," ++ DQ ++ "No error" ++ DQ; "+0," ++ DQ ++ "No error" ++ DQ] []) =
  (Return tt,
   mkWorld []
     [Send "CAL1:ZERO:AUTO ONCE";
      Send "SYST:ERR?"; Readline ("+0," ++ DQ ++ "No error" ++ DQ);
      Sleep 10;
      Send "SYST:ERR?"; Readline ("+0," ++ DQ ++ "No error" ++ DQ)]).
Proof. reflexivity. Qed.

(** Blanks after the sign of the code are accepted by [int()]. *)
Example error_query_sign_then_blank :
  reply_of ("- 5," ++ DQ ++ "x" ++ DQ) = Return (-5, "x")
  /\ reply_of "- 5" = Raise IndexError
  /\ check_reply ("+ 0," ++ DQ ++ "No error" ++ DQ) = Return tt
  /\ reply_of ("-," ++ DQ ++ "x" ++ DQ) = Raise (ValueError "-").
Proof. repeat split; reflexivity. Qed.

(** A comma inside the quoted message cuts the message short. *)
Example error_query_truncates_at_comma :
  reply_of ("-310," ++ DQ ++ "System error;Sensor, detached" ++ DQ)
  = Return (-310, "System error;Sensor").
Proof. reflexivity. Qed.

(** Case and trailing blanks matter for the catalog. *)
Example check_for_case_sensitive :
  check_for "illegal parameter value" error_list = None
  /\ check_for "Illegal parameter value " error_list = None
  /\ check_for "Illegal parameter value" error_list
     = Some (StandardError (matched_text entry_illegal_parameter)).
Proof. repeat split; reflexivity. Qed.

(** C1 fails as stated: with the reported code -225 and the message of the
    -224 entry, the text raised shows -224, not -225. *)
Lemma check_reported_code_counterexample :
  In entry_illegal_parameter error_list
  /\ check (-225) (error_item.msg entry_illegal_parameter)
     = Raise (StandardError
                (matched_format (error_item.msg entry_illegal_parameter) (-224)
                   (error_item.txt entry_illegal_parameter)))
  /\ check (-225) (error_item.msg entry_illegal_parameter)
     <> Raise (StandardError
                 (matched_format (error_item.msg entry_illegal_parameter) (-225)
                    (error_item.txt entry_illegal_parameter))).
Proof.
  split; [exact entry_illegal_parameter_In|].
  assert (check (-225) (error_item.msg entry_illegal_parameter)
          = Raise (StandardError
                     (matched_format (error_item.msg entry_illegal_parameter) (-224)
                        (error_item.txt entry_illegal_parameter)))) as E
    by reflexivity.
  split; [exact E|]. rewrite E. intros H.
  assert (-224 = -225) as F; [|discriminate F].
  apply (matched_format_code (error_item.msg entry_illegal_parameter)
           (error_item.txt entry_illegal_parameter)).
  congruence.
Qed.

Lemma check_matched_shows_catalog_code_witness :
  -225 <> 0
  /\ In entry_illegal_parameter error_list
  /\ check (-225) "Illegal parameter value"
     = Raise (StandardError
                (matched_format "Illegal parameter value" (-224)
                   (error_item.txt entry_illegal_parameter))).
Proof.
  assert (-225 <> 0) as H1 by discriminate.
  exact (conj H1 (conj entry_illegal_parameter_In
    (proj1 (check_matched_shows_catalog_code (-225) entry_illegal_parameter
              H1 entry_illegal_parameter_In)))).
Defined.

(** C2 fails as stated: a reply of three comma-separated fields is not
    rejected; the third field is dropped. *)
Lemma error_query_three_fields_counterexample :
  List.length (Py.split (Py.strip ("-224," ++ DQ ++ "a,b" ++ DQ)) ",") = 3%nat
  /\ E4418.error_query (mkWorld ["-224," ++ DQ ++ "a,b" ++ DQ] [])
     = (Return (-224, "a"), after_query ("-224," ++ DQ ++ "a,b" ++ DQ) [] []).
Proof. split; reflexivity. Qed.

Lemma error_query_malformed_witness :
  (count "12" "," = O \/ Py.int_literal (field0 "12") = None)
  /\ E4418.error_query (mkWorld ["12"] [])
     = (Raise IndexError, after_query "12" [] []).
Proof.
  assert (count "12" "," = O \/ Py.int_literal (field0 "12") = None) as H
    by (left; reflexivity).
  exact (conj H (error_query_malformed "12" [] [] H)).
Defined.

Lemma lookup_entry_message_witness :
  In entry_illegal_parameter error_list
  /\ 5 <> 0
  /\ lookup "Illegal parameter value" = Some entry_illegal_parameter
  /\ check 5 "Illegal parameter value"
     = Raise (StandardError (matched_text entry_illegal_parameter)).
Proof.
  assert (5 <> 0) as H by discriminate.
  exact (conj entry_illegal_parameter_In (conj H
    (lookup_entry_message entry_illegal_parameter 5
       entry_illegal_parameter_In H))).
Defined.


Lemma zeroing_sequence_witness :
  reply_of ("-224," ++ DQ ++ "Illegal parameter value" ++ DQ)
    = Return (-224, "Illegal parameter value")
  /\ E4418.zeroing 2
       (mkWorld ["-224," ++ DQ ++ "Illegal parameter value" ++ DQ] [])
     = (check (-224) "Illegal parameter value",
        mkWorld []
          [Send "CAL2:ZERO:AUTO ONCE"; Send "SYST:ERR?";
           Readline ("-224," ++ DQ ++ "Illegal parameter value" ++ DQ)]).
Proof.
  assert (reply_of ("-224," ++ DQ ++ "Illegal parameter value" ++ DQ)
          = Return (-224, "Illegal parameter value")) as H1 by reflexivity.
  exact (conj H1 (proj1 (zeroing_sequence 2 _ [] [] (-224) _ H1))).
Defined.

(** C6 fails as stated: a blank between the comma and the opening quote
    stays in the message, and with it the opening quote. *)
Lemma error_query_message_whitespace_counterexample :
  E4418.error_query (mkWorld ["0, " ++ DQ ++ "No error." ++ DQ] [])
  = (Return (0, " " ++ DQ ++ "No error."),
     after_query ("0, " ++ DQ ++ "No error." ++ DQ) [] [])
  /\ " " ++ DQ ++ "No error." <> "No error."
  /\ Py.strip (" " ++ DQ ++ "No error.") <> " " ++ DQ ++ "No error.".
Proof. repeat split; try reflexivity; discriminate. Qed.

Lemma error_query_wire_format_witness :
  all_chars Py.isspace EmptyString = true
  /\ all_chars is_plain "No error." = true
  /\ E4418.error_query (mkWorld ["0," ++ DQ ++ "No error." ++ DQ] [])
     = (Return (0, "No error."),
        after_query ("0," ++ DQ ++ "No error." ++ DQ) [] []).
Proof.
  assert (all_chars Py.isspace EmptyString = true) as H by reflexivity.
  assert (all_chars is_plain "No error." = true) as Hm by reflexivity.
  exact (conj H (conj Hm
    (error_query_wire_format 0 "No error." EmptyString EmptyString EmptyString
       [] [] H H H Hm))).
Defined.

Lemma check_unknown_message_witness :
  -500 <> 0
  /\ lookup "Firmware fault" = None
  /\ exists stars,
       stars = Py.mul "*" (String.length "Firmware fault"
                           + String.length (Py.fmt_d (-500)) + 4)
       /\ check (-500) "Firmware fault"
          = Raise (StandardError
                     ("Power meter returned Error message." ++ LF
                      ++ stars ++ LF
                      ++ "Firmware fault" ++ " (" ++ Py.fmt_d (-500) ++ ")" ++ LF
                      ++ stars ++ LF)).
Proof.
  assert (-500 <> 0) as H by discriminate.
  assert (lookup "Firmware fault" = None) as L by reflexivity.
  exact (conj H (conj L (check_unknown_message (-500) "Firmware fault" H L))).
Defined.

Lemma error_query_two_fields_witness :
  (1 <= count ("-310," ++ DQ ++ "System error;Sensor, detached" ++ DQ) ",")%nat
  /\ Py.int_literal
       (field0 ("-310," ++ DQ ++ "System error;Sensor, detached" ++ DQ))
     = Some (-310)
  /\ E4418.error_query
       (mkWorld ["-310," ++ DQ ++ "System error;Sensor, detached" ++ DQ] [])
     = (Return (-310, "System error;Sensor"),
        after_query ("-310," ++ DQ ++ "System error;Sensor, detached" ++ DQ)
          [] []).
Proof.
  assert (1 <= count ("-310," ++ DQ ++ "System error;Sensor, detached" ++ DQ) ",")%nat
    as H1 by (vm_compute; lia).
  assert (Py.int_literal
            (field0 ("-310," ++ DQ ++ "System error;Sensor, detached" ++ DQ))
          = Some (-310)) as H2 by reflexivity.
  destruct (error_query_two_fields _ [] [] (-310) H1 H2)
    as (f1 & more & tl & m & qa & qb & _ & _ & _ & _ & _ & _ & _ & _ & _ & _ & Q).
  assert (m = "System error;Sensor") as E.
  { vm_compute in Q. injection Q as Q. symmetry. exact Q. }
  rewrite E in Q. exact (conj H1 (conj H2 Q)).
Defined.

Lemma check_exact_match_only_witness :
  -224 <> 0
  /\ (forall e, In e error_list -> error_item.msg e <> "illegal parameter value")
  /\ check_for "illegal parameter value" error_list = None
  /\ check (-224) "illegal parameter value"
     = Raise (StandardError (unmatched_text (-224) "illegal parameter value"))
  /\ exists stars,
       stars = Py.mul "*" (String.length "illegal parameter value"
                           + String.length (Py.fmt_d (-224)) + 4)
       /\ check (-224) "illegal parameter value"
          = Raise (StandardError
                     ("Power meter returned Error message." ++ LF
                      ++ stars ++ LF
                      ++ "illegal parameter value" ++ " (" ++ Py.fmt_d (-224)
                      ++ ")" ++ LF
                      ++ stars ++ LF)).
Proof.
  assert (-224 <> 0) as H by discriminate.
  assert (forall e, In e error_list ->
                    error_item.msg e <> "illegal parameter value") as N
    by (apply no_entry_by_eval; vm_compute; reflexivity).
  exact (conj H (conj N
    (check_exact_match_only (-224) "illegal parameter value" H N))).
Defined.

End Runs.

(** * Further properties *)

(** ** The texts raised by [error_handler.check] *)

Section Texts.

Import error_handler.

Lemma raise_text_inj (a b : string) :
  @Raise unit (StandardError a) = Raise (StandardError b) -> a = b.
Proof. intros H. now injection H. Qed.

Lemma stars_run (a b : nat) (x y : string) :
  Py.mul "*" a ++ LF ++ x = Py.mul "*" b ++ LF ++ y -> a = b /\ x = y.
Proof.
  revert b. induction a as [|a IH]; intros [|b] H; simpl in H.
  - injection H as ->. now split.
  - discriminate.
  - discriminate.
  - injection H as H. destruct (IH b H) as [-> ->]. now split.
Qed.

Lemma numeric_no_blank (x t : string) :
  all_chars is_numeric x = true -> count t " " = O ->
  count (String "(" (x ++ String ")" t)) " " = O.
Proof.
  intros Hx Ht. simpl. rewrite count_append. simpl.
  now rewrite (count_zero is_numeric x " " eq_refl Hx), Ht.
Qed.

Lemma blank_counted (m y : string) : count (m ++ String " " y) " " <> O.
Proof. rewrite count_append. simpl. lia. Qed.

(** The line "message (code)" splits in one way only. *)
Lemma emsg_inj (m m' x x' t : string) :
  all_chars is_numeric x = true -> all_chars is_numeric x' = true ->
  count t " " = O ->
  m ++ " (" ++ x ++ ")" ++ t = m' ++ " (" ++ x' ++ ")" ++ t ->
  m = m' /\ x = x'.
Proof.
  intros Hx Hx' Ht. revert m'.
  induction m as [|c m IH]; intros [|c' m'] E; simpl in E.
  - split; [reflexivity|]. injection E as E.
    exact (append_cancel_r x x' (String ")" t) E).
  - exfalso. injection E as _ E.
    apply (f_equal (fun s => count s " ")) in E.
    rewrite (numeric_no_blank x t Hx Ht) in E.
    symmetry in E. exact (blank_counted m' _ E).
  - exfalso. injection E as _ E.
    apply (f_equal (fun s => count s " ")) in E.
    rewrite (numeric_no_blank x' t Hx' Ht) in E.
    exact (blank_counted m _ E).
  - injection E as -> E. destruct (IH m' E) as [-> ->]. now split.
Qed.

Lemma unmatched_text_eq (num : Z) (msg : string) :
  unmatched_text num msg =
  "Power meter returned Error message." ++ LF
  ++ Py.mul "*" (String.length (msg ++ " (" ++ Py.fmt_d num ++ ")" ++ LF)) ++ LF
  ++ (msg ++ " (" ++ Py.fmt_d num ++ ")" ++ LF)
  ++ Py.mul "*" (String.length (msg ++ " (" ++ Py.fmt_d num ++ ")" ++ LF)) ++ LF.
Proof.
  unfold unmatched_text, Py.len. cbv zeta. now rewrite !append_assoc.
Qed.

Lemma matched_format_eq (m : string) (n : Z) (t : string) :
  matched_format m n t =
  "Power meter returned Error message." ++ LF
  ++ Py.mul "*" (String.length (m ++ " (" ++ Py.fmt_d n ++ ")")) ++ LF
  ++ (m ++ " (" ++ Py.fmt_d n ++ ")") ++ LF
  ++ Py.mul "*" (String.length (m ++ " (" ++ Py.fmt_d n ++ ")")) ++ LF
  ++ t ++ LF.
Proof.
  unfold matched_format, Py.len. cbv zeta. now rewrite !append_assoc.
Qed.

Lemma unmatched_text_inj (n n' : Z) (m m' : string) :
  unmatched_text n m = unmatched_text n' m' -> n = n' /\ m = m'.
Proof.
  rewrite !unmatched_text_eq. intros E.
  do 2 apply append_cancel_l in E.
  apply stars_run in E as [L E].
  apply (append_same_length _ _ _ _ L) in E.
  apply (emsg_inj m m' _ _ LF (fmt_d_numeric n) (fmt_d_numeric n') eq_refl) in E.
  destruct E as [-> E]. now rewrite (fmt_d_inj _ _ E).
Qed.

Lemma matched_format_inj (m m' t t' : string) (n n' : Z) :
  matched_format m n t = matched_format m' n' t' ->
  m = m' /\ n = n' /\ t = t'.
Proof.
  rewrite !matched_format_eq. intros E.
  do 2 apply append_cancel_l in E.
  apply stars_run in E as [L E].
  pose proof (append_same_length _ _ _ _ L E) as F.
  rewrite F in E. do 2 apply append_cancel_l in E.
  apply stars_run in E as [_ E]. apply append_cancel_r in E.
  apply (emsg_inj m m' _ _ EmptyString
           (fmt_d_numeric n) (fmt_d_numeric n') eq_refl) in F.
  destruct F as [-> F]. now rewrite (fmt_d_inj _ _ F).
Qed.

(** A text of the matched branch is never a text of the fallback. *)
Lemma matched_not_unmatched (m m' t : string) (n n' : Z) :
  matched_format m n t <> unmatched_text n' m'.
Proof.
  rewrite matched_format_eq, unmatched_text_eq. intros E.
  do 2 apply append_cancel_l in E.
  apply stars_run in E as [L E].
  apply (append_same_length _ _ _ _ L) in E.
  replace (m ++ " (" ++ Py.fmt_d n ++ ")")
    with ((m ++ " (" ++ Py.fmt_d n) ++ String ")" EmptyString) in E
    by (now rewrite !append_assoc).
  replace (m' ++ " (" ++ Py.fmt_d n' ++ ")" ++ LF)
    with ((m' ++ " (" ++ Py.fmt_d n' ++ ")") ++ String "010" EmptyString) in E
    by (now rewrite !append_assoc).
  apply append_last_inj in E as [_ E]. discriminate.
Qed.

End Texts.

(** ** Reading the exception of [error_handler.check] back *)

Section Decode.

Import error_handler.

(** X1: when [check] raises a text of the fallback form, built from a
    code and a message, these are the code and the message it was called
    with, and no catalog entry has that message. *)
Theorem check_fallback_text_decodes (num num' : Z) (msg msg' : string) :
  check num msg = Raise (StandardError (unmatched_text num' msg')) ->
  num = num' /\ msg = msg'
  /\ (forall e, In e error_list -> error_item.msg e <> msg).
Proof.
  intros H. destruct (Z.eq_dec num 0) as [->|Hn]; [discriminate H|].
  rewrite (check_nonzero _ _ Hn) in H.
  destruct (lookup msg) as [e|] eqn:L.
  - apply raise_text_inj in H. exfalso.
    exact (matched_not_unmatched _ _ _ _ _ H).
  - apply raise_text_inj, unmatched_text_inj in H. destruct H as [-> ->].
    repeat split. now apply lookup_None.
Qed.

(** X2: when [check] raises a text of the matched form, built from a
    message, a code and a detail text, the code it was called with is not
    zero, the message is the one it was called with, and the catalog holds
    the entry with that code, message and detail. *)
Theorem check_matched_text_decodes (num n : Z) (msg m t : string) :
  check num msg = Raise (StandardError (matched_format m n t)) ->
  num <> 0 /\ msg = m /\ In (error_item.init n m t) error_list.
Proof.
  intros H. destruct (Z.eq_dec num 0) as [->|Hn]; [discriminate H|].
  split; [exact Hn|].
  rewrite (check_nonzero _ _ Hn) in H.
  destruct (lookup msg) as [e|] eqn:L.
  - apply raise_text_inj in H. unfold matched_text in H.
    apply matched_format_inj in H as (Hm & Hnum & Ht).
    apply lookup_Some in L as [Hin Hmsg].
    destruct e as [en em et]. simpl in *. subst. now split.
  - apply raise_text_inj in H. symmetry in H. exfalso.
    exact (matched_not_unmatched _ _ _ _ _ H).
Qed.

(** X3: the loop stops at the first entry with the message: in any
    catalog, entries before it with other messages are passed over and
    entries after it, even with the same message, are never used. *)
Theorem check_for_first_match (msg : string) (l1 l2 : list error_item.t)
    (e : error_item.t) :
  (forall x, In x l1 -> error_item.msg x <> msg) ->
  error_item.msg e = msg ->
  check_for msg (l1 ++ e :: l2) = Some (StandardError (matched_text e)).
Proof.
  intros H1 He. induction l1 as [|x l1 IH]; simpl.
  - now rewrite <- He, String.eqb_refl.
  - destruct (String.eqb_spec msg (error_item.msg x)) as [E|_].
    + exfalso. apply (H1 x); [now left | now symmetry].
    + apply IH. intros y Hy. apply H1. now right.
Qed.

End Decode.

(** ** One query, one check *)

Section Session.

Import error_handler.

(** X4: whether the reply parses or not, and whatever its code, one call
    of [error_query] or of [_error_check] sends [SYST:ERR?] once, reads
    exactly one line and leaves the later replies where they are. *)
Theorem query_and_check_consume_one_line (line : string)
    (rest : list string) (lg : list event) :
  snd (E4418.error_query (mkWorld (line :: rest) lg)) = after_query line rest lg
  /\ snd (E4418._error_check (mkWorld (line :: rest) lg))
     = after_query line rest lg.
Proof. now rewrite error_query_reply, error_check_outcome. Qed.

(** X5: [_error_check] returns normally exactly when the reply parses and
    its code is zero. *)
Theorem error_check_passes_iff_zero (line : string) (rest : list string)
    (lg : list event) :
  fst (E4418._error_check (mkWorld (line :: rest) lg)) = Return tt
  <-> exists m, reply_of line = Return (0, m).
Proof. rewrite error_check_outcome. apply check_reply_passes. Qed.

(** X6: [_error_check] lets a parse failure through as it is: for a reply
    without comma or with a first field that is not an integer it raises
    the [ValueError] or [IndexError] of [error_query], and the catalog is
    not consulted. *)
Theorem error_check_malformed (line : string) (rest : list string)
    (lg : list event) :
  count line "," = O \/ Py.int_literal (field0 line) = None ->
  E4418._error_check (mkWorld (line :: rest) lg) =
  (Raise (match Py.int_literal (field0 line) with
          | None => ValueError (field0 line)
          | Some _ => IndexError
          end), after_query line rest lg).
Proof.
  intros H. rewrite error_check_reply.
  now rewrite (reply_of_malformed line H).
Qed.

(** X7: whitespace before and after the reply, line terminators included,
    does not change what [error_query] returns or raises. *)
Theorem error_query_ignores_padding (ws1 ws2 line : string)
    (rest : list string) (lg : list event) :
  all_chars Py.isspace ws1 = true -> all_chars Py.isspace ws2 = true ->
  fst (E4418.error_query (mkWorld ((ws1 ++ line ++ ws2) :: rest) lg))
  = fst (E4418.error_query (mkWorld (line :: rest) lg)).
Proof.
  intros H1 H2. rewrite !error_query_reply. simpl.
  rewrite !reply_of_fields. unfold Py.strip.
  now rewrite (strip_by_padded _ ws1 line ws2 H1 H2).
Qed.

(** X8: a message returned by [error_query] contains no comma and neither
    begins nor ends with a double quote. *)
Theorem error_query_message_shape (line : string) (rest : list string)
    (lg : list event) (n : Z) (m : string) :
  fst (E4418.error_query (mkWorld (line :: rest) lg)) = Return (n, m) ->
  count m "," = O
  /\ (forall r, m <> DQ ++ r) /\ (forall r, m <> r ++ DQ).
Proof.
  rewrite error_query_reply. simpl. intros H.
  apply reply_of_Return in H as (f0 & f1 & more & S & _ & ->).
  set (q := fun c : ascii => Py.mem c DQ).
  assert (forall c, q c = false -> c <> "034"%char) as Q.
  { intros c Hc ->. discriminate Hc. }
  split; [|split].
  - pose proof (split_fields_no_sep (Py.strip line) ",") as F.
    rewrite S in F. inversion F as [|? ? _ F1]; subst.
    inversion F1 as [|? ? Hf1 _]; subst.
    unfold Py.strip_chars, Py.strip_by.
    now rewrite (count_rstrip_by q _ "," eq_refl),
      (count_lstrip_by q _ "," eq_refl).
  - intros r H. unfold Py.strip_chars, Py.strip_by in H. fold q in H.
    simpl in H.
    destruct (rstrip_by_head q _ _ _ H) as [s' Hs'].
    apply lstrip_by_head in Hs'. now apply (Q _ Hs').
  - intros r H. unfold Py.strip_chars, Py.strip_by in H. fold q in H.
    apply rstrip_by_last_char in H. now apply (Q _ H).
Qed.

End Session.

(** ** From the reply to the catalog *)

Section Reach.

Import error_handler.

Lemma reply_of_code_field (c : ascii) (code m : string) (n : Z) :
  Py.isspace c = false ->
  count (String c code) "," = O ->
  Py.int_literal (String c code) = Some n ->
  all_chars is_plain m = true ->
  reply_of (String c code ++ "," ++ DQ ++ m ++ DQ) = Return (n, m).
Proof.
  intros Hc Hk Hi Hm. rewrite reply_of_fields.
  assert (Py.strip (String c code ++ "," ++ DQ ++ m ++ DQ)
          = String c code ++ "," ++ DQ ++ m ++ DQ) as S.
  { unfold Py.strip, Py.strip_by.
    change (String c code ++ "," ++ DQ ++ m ++ DQ)
      with (String c (code ++ "," ++ DQ ++ m ++ DQ)).
    rewrite (lstrip_by_cons _ _ _ Hc).
    change (String c (code ++ "," ++ DQ ++ m ++ DQ))
      with (String c code ++ "," ++ DQ ++ m ++ DQ).
    replace (String c code ++ "," ++ DQ ++ m ++ DQ)
      with ((String c code ++ "," ++ DQ ++ m) ++ DQ)
      by (now rewrite !append_assoc).
    now apply rstrip_by_last. }
  rewrite S.
  change (String c code ++ "," ++ DQ ++ m ++ DQ)
    with (String c code ++ String "," (DQ ++ m ++ DQ)).
  rewrite (split_at_sep _ _ _ Hk), split_no_sep.
  - now rewrite Hi, (strip_quoted m Hm).
  - rewrite !count_append.
    now rewrite (count_zero is_plain m "," eq_refl Hm).
Qed.

Lemma reply_of_quoted (n : Z) (m : string) :
  all_chars is_plain m = true ->
  reply_of (Py.fmt_d n ++ "," ++ DQ ++ m ++ DQ) = Return (n, m).
Proof.
  intros Hm.
  pose proof (count_zero is_numeric _ "," eq_refl (fmt_d_numeric n)) as K.
  pose proof (int_literal_fmt_d n) as I.
  destruct (fmt_d_cons n) as (c & r & E & Hc). rewrite E in *.
  now apply reply_of_code_field.
Qed.

Lemma int_literal_plus (n : Z) :
  0 <= n -> Py.int_literal (String "+" (Py.fmt_d n)) = Some n.
Proof.
  intros Hn. unfold Py.int_literal.
  rewrite (strip_by_id Py.isspace : forall s, _ -> Py.strip s = s).
  - destruct n as [|p|p]; [reflexivity | | lia].
    unfold Py.fmt_d. simpl. rewrite lstrip_digits.
    rewrite (NilZero.usu _ (Unsigned.to_uint_nonnil p)). simpl.
    now rewrite of_uint_to_uint.
  - simpl. apply all_chars_impl with (p := is_numeric).
    + intros x Hx. now rewrite (numeric_not_space x Hx).
    + apply fmt_d_numeric.
Qed.

Lemma check_raises_matched (num : Z) (msg : string) (e : error_item.t) :
  check num msg = Raise (StandardError (matched_text e)) ->
  num <> 0 /\ lookup msg = Some e.
Proof.
  intros H. destruct (Z.eq_dec num 0) as [->|Hn]; [discriminate H|].
  split; [exact Hn|]. rewrite (check_nonzero _ _ Hn) in H.
  destruct (lookup msg) as [e'|].
  - apply raise_text_inj in H. unfold matched_text in H.
    apply matched_format_inj in H as (Hm & Hnum & Ht).
    destruct e, e'. simpl in *. now subst.
  - apply raise_text_inj in H. symmetry in H. exfalso.
    exact (matched_not_unmatched _ _ _ _ _ H).
Qed.

Lemma reply_message_no_comma (line : string) (n : Z) (m : string) :
  reply_of line = Return (n, m) -> count m "," = O.
Proof.
  intros H. apply reply_of_Return in H as (f0 & f1 & more & S & _ & ->).
  pose proof (split_fields_no_sep (Py.strip line) ",") as F.
  rewrite S in F. inversion F as [|? ? _ F1]; subst.
  inversion F1 as [|? ? Hf1 _]; subst.
  unfold Py.strip_chars, Py.strip_by.
  now rewrite (count_rstrip_by _ _ "," eq_refl),
    (count_lstrip_by _ _ "," eq_refl).
Qed.

(** X9: when [_error_check] raises the text of a catalog entry, the reply
    carried a non-zero code and that entry's message, and the message has
    no comma; the entry of [error_list] whose message contains a comma is
    therefore never the one reported. *)
Theorem error_check_reports_comma_free_entry (line : string)
    (rest : list string) (lg : list event) (e : error_item.t) :
  fst (E4418._error_check (mkWorld (line :: rest) lg))
  = Raise (StandardError (matched_text e)) ->
  (exists n, n <> 0 /\ reply_of line = Return (n, error_item.msg e))
  /\ In e error_list
  /\ count (error_item.msg e) "," = O
  /\ e <> entry_both_inputs.
Proof.
  rewrite error_check_outcome, check_reply_eq. simpl.
  destruct (reply_of line) as [[n m]|e0] eqn:R.
  - intros H. apply check_raises_matched in H as [Hn L].
    apply lookup_Some in L as [Hin Hm]. subst m.
    pose proof (reply_message_no_comma _ _ _ R) as K.
    split; [now exists n|]. split; [exact Hin|]. split; [exact K|].
    intros ->. vm_compute in K. discriminate K.
  - intros H. apply reply_of_Raise in R as [->|[s ->]]; discriminate H.
Qed.

(** X10: for every catalog entry whose message has neither comma nor
    double quote and every non-zero code, the reply made of the code, a
    comma and the quoted message makes [_error_check] raise the text of
    that entry. *)
Theorem error_check_reports_entry (e : error_item.t) (n : Z)
    (rest : list string) (lg : list event) :
  In e error_list -> all_chars is_plain (error_item.msg e) = true -> n <> 0 ->
  E4418._error_check
    (mkWorld ((Py.fmt_d n ++ "," ++ DQ ++ error_item.msg e ++ DQ) :: rest) lg)
  = (Raise (StandardError (matched_text e)),
     after_query (Py.fmt_d n ++ "," ++ DQ ++ error_item.msg e ++ DQ) rest lg).
Proof.
  intros Hin Hp Hn. rewrite error_check_reply.
  rewrite (reply_of_quoted n _ Hp), (check_nonzero _ _ Hn). unfold lookup.
  now rewrite (find_by_msg _ _ error_list_messages_distinct Hin).
Qed.

(** X11: a code written with an explicit plus sign, as the instrument
    writes its [+0], is read as that code. *)
Theorem error_query_plus_sign (n : Z) (m : string) (rest : list string)
    (lg : list event) :
  0 <= n -> all_chars is_plain m = true ->
  fst (E4418.error_query
         (mkWorld (("+" ++ Py.fmt_d n ++ "," ++ DQ ++ m ++ DQ) :: rest) lg))
  = Return (n, m).
Proof.
  intros Hn Hm. rewrite error_query_reply. simpl fst.
  change ("+" ++ Py.fmt_d n ++ "," ++ DQ ++ m ++ DQ)
    with (String "+" (Py.fmt_d n) ++ "," ++ DQ ++ m ++ DQ).
  apply reply_of_code_field; [reflexivity | | now apply int_literal_plus | exact Hm].
  simpl. exact (count_zero is_numeric _ "," eq_refl (fmt_d_numeric n)).
Qed.

End Reach.

(** ** More on [E4418.zeroing] *)

Section ZeroingMore.

#[local] Arguments E4418._error_check : simpl never.
#[local] Arguments check_reply : simpl never.

(** Closes a goal on the log and the pending replies once the number of
    events and of replies taken is given. *)
Ltac log_prefix k j :=
  exists k, j; cbn; rewrite ?List.app_nil_r;
  split; [|split]; [reflexivity | lia | reflexivity].

(** X12: [zeroing] returns normally exactly when both replies parse and
    both codes are zero. *)
Theorem zeroing_succeeds_iff (ch : Z) (l1 l2 : string) (rest : list string)
    (lg : list event) :
  fst (E4418.zeroing ch (mkWorld (l1 :: l2 :: rest) lg)) = Return tt
  <-> (exists m1, reply_of l1 = Return (0, m1))
      /\ (exists m2, reply_of l2 = Return (0, m2)).
Proof.
  rewrite zeroing_steps, <- !check_reply_passes.
  destruct (check_reply l1) as [[]|e] eqn:C1.
  - rewrite error_check_outcome. simpl. tauto.
  - simpl. split; [discriminate | intros [H _]; discriminate H].
Qed.

(** X13: whatever makes the first check raise, a device error or a reply
    that does not parse, [zeroing] raises the same exception at once:
    nothing is slept and the later replies stay unread. *)
Theorem zeroing_first_check_raises (ch : Z) (l1 : string)
    (rest : list string) (lg : list event) (e : exn) :
  check_reply l1 = Raise e ->
  E4418.zeroing ch (mkWorld (l1 :: rest) lg) =
  (Raise e,
   mkWorld rest
     (lg ++ [Send ("CAL" ++ Py.fmt_d ch ++ ":ZERO:AUTO ONCE");
             Send "SYST:ERR?"; Readline l1])).
Proof. intros H. now rewrite zeroing_steps, H. Qed.

(** In any state of the link, one check is a send, a read and the
    outcome of [check_reply] on the line read, and it stops at the first
    of these that raises. *)
Lemma error_check_any (w : world) :
  E4418._error_check w =
  match com.send "SYST:ERR?" w with
  | (Raise e, w1) => (Raise e, w1)
  | (Return _, w1) =>
      match com.readline w1 with
      | (Raise e, w2) => (Raise e, w2)
      | (Return line, w2) => (check_reply line, w2)
      end
  end.
Proof.
  unfold E4418._error_check, E4418.error_query, bind.
  destruct (com.send "SYST:ERR?" w) as [[u|e] w1]; [|reflexivity].
  destruct (com.readline w1) as [[line|e] w2]; [|reflexivity].
  rewrite check_reply_eq, reply_of_fields.
  unfold lift, pure, Py.getitem, Py.int.
  destruct (Py.split (Py.strip line) ",") as [|f0 fs]; simpl; [reflexivity|].
  destruct (Py.int_literal f0); [|reflexivity].
  now destruct fs.
Qed.

(** X14: in every state of the link, whichever of its operations fail,
    and whatever replies are pending, the events that [zeroing] adds to
    the log are an initial part of: send the command, send [SYST:ERR?],
    read the first reply, sleep 10 seconds, send [SYST:ERR?], read the
    second reply; and it takes at most the first two pending replies. *)
Theorem zeroing_log_shape (ch : Z) (w : world) :
  exists k j,
    log (snd (E4418.zeroing ch w))
    = (log w
       ++ firstn k
            [Send ("CAL" ++ Py.fmt_d ch ++ ":ZERO:AUTO ONCE");
             Send "SYST:ERR?"; Readline (nth 0 (pending w) EmptyString);
             Sleep 10;
             Send "SYST:ERR?"; Readline (nth 1 (pending w) EmptyString)])%list
    /\ (j <= 2)%nat
    /\ pending (snd (E4418.zeroing ch w)) = skipn j (pending w).
Proof.
  destruct w as [p lg o]. unfold E4418.zeroing, bind.
  destruct o as [|[|] [|[|] [|[|] [|[|] [|[|] o]]]]];
    destruct p as [|l1 [|l2 p]];
    repeat first
      [ rewrite error_check_any
      | progress cbn
      | match goal with
        | |- context [check_reply ?l] => destruct (check_reply l) as [[]|?]
        end ];
    repeat (rewrite <- List.app_assoc; cbn);
    first [ log_prefix 0%nat 0%nat | log_prefix 1%nat 0%nat
          | log_prefix 2%nat 0%nat | log_prefix 3%nat 1%nat
          | log_prefix 4%nat 1%nat | log_prefix 5%nat 1%nat
          | log_prefix 6%nat 2%nat ].
Qed.

End ZeroingMore.

(** ** Concrete runs for the further properties *)

Section MoreRuns.

Import error_handler.

(** The message of the forty-eighth entry contains a comma; sent back by
    the instrument, it is cut at the comma and falls to the fallback. *)
Example entry_both_inputs_run :
  In entry_both_inputs error_list
  /\ count (error_item.msg entry_both_inputs) "," = 1%nat
  /\ check_reply ("-310," ++ DQ ++ error_item.msg entry_both_inputs ++ DQ)
     = Raise (StandardError
                (unmatched_text (-310)
                   "System error;Sensors connected to both front and rear inputs. You cannot connect two power sensors to the one channel input. In this instance")).
Proof.
  split; [apply (nth_error_In error_list 47); reflexivity|].
  split; reflexivity.
Qed.

Lemma check_fallback_text_decodes_witness :
  check (-500) "Firmware fault"
  = Raise (StandardError (unmatched_text (-500) "Firmware fault"))
  /\ -500 = -500 /\ "Firmware fault" = "Firmware fault"
  /\ (forall e, In e error_list -> error_item.msg e <> "Firmware fault").
Proof.
  assert (check (-500) "Firmware fault"
          = Raise (StandardError (unmatched_text (-500) "Firmware fault")))
    as H by reflexivity.
  exact (conj H (check_fallback_text_decodes _ _ _ _ H)).
Defined.

Lemma check_matched_text_decodes_witness :
  check (-225) "Illegal parameter value"
  = Raise (StandardError
             (matched_format "Illegal parameter value" (-224)
                (error_item.txt entry_illegal_parameter)))
  /\ -225 <> 0
  /\ "Illegal parameter value" = "Illegal parameter value"
  /\ In (error_item.init (-224) "Illegal parameter value"
           (error_item.txt entry_illegal_parameter)) error_list.
Proof.
  assert (check (-225) "Illegal parameter value"
          = Raise (StandardError
                     (matched_format "Illegal parameter value" (-224)
                        (error_item.txt entry_illegal_parameter))))
    as H by reflexivity.
  exact (conj H (check_matched_text_decodes _ _ _ _ _ H)).
Defined.

Lemma check_for_first_match_witness :
  (forall x, In x [error_item.init 1 "a" EmptyString] -> error_item.msg x <> "b")
  /\ error_item.msg (error_item.init 2 "b" "first") = "b"
  /\ check_for "b"
       ([error_item.init 1 "a" EmptyString]
        ++ error_item.init 2 "b" "first" :: [error_item.init 3 "b" "second"])
     = Some (StandardError (matched_text (error_item.init 2 "b" "first"))).
Proof.
  assert (forall x, In x [error_item.init 1 "a" EmptyString] ->
                    error_item.msg x <> "b") as H1.
  { intros x [<-|[]]. discriminate. }
  assert (error_item.msg (error_item.init 2 "b" "first") = "b") as H2
    by reflexivity.
  exact (conj H1 (conj H2
    (check_for_first_match "b" _ [error_item.init 3 "b" "second"] _ H1 H2))).
Defined.

Lemma error_check_malformed_witness :
  (count "12" "," = O \/ Py.int_literal (field0 "12") = None)
  /\ E4418._error_check (mkWorld ["12"] [])
     = (Raise IndexError, after_query "12" [] []).
Proof.
  assert (count "12" "," = O \/ Py.int_literal (field0 "12") = None) as H
    by (left; reflexivity).
  exact (conj H (error_check_malformed "12" [] [] H)).
Defined.

Lemma error_query_ignores_padding_witness :
  all_chars Py.isspace " " = true
  /\ all_chars Py.isspace (String "013" LF) = true
  /\ fst (E4418.error_query
            (mkWorld [" " ++ ("+0," ++ DQ ++ "No error" ++ DQ) ++ String "013" LF] []))
     = fst (E4418.error_query (mkWorld ["+0," ++ DQ ++ "No error" ++ DQ] [])).
Proof.
  assert (all_chars Py.isspace " " = true) as H1 by reflexivity.
  assert (all_chars Py.isspace (String "013" LF) = true) as H2 by reflexivity.
  exact (conj H1 (conj H2
    (error_query_ignores_padding " " (String "013" LF)
       ("+0," ++ DQ ++ "No error" ++ DQ) [] [] H1 H2))).
Defined.

Lemma error_query_message_shape_witness :
  fst (E4418.error_query
         (mkWorld ["-224," ++ DQ ++ "Illegal parameter value" ++ DQ] []))
  = Return (-224, "Illegal parameter value")
  /\ count "Illegal parameter value" "," = O
  /\ (forall r, "Illegal parameter value" <> DQ ++ r)
  /\ (forall r, "Illegal parameter value" <> r ++ DQ).
Proof.
  assert (fst (E4418.error_query
                 (mkWorld ["-224," ++ DQ ++ "Illegal parameter value" ++ DQ] []))
          = Return (-224, "Illegal parameter value")) as H by reflexivity.
  exact (conj H (error_query_message_shape _ [] [] _ _ H)).
Defined.

Lemma error_check_reports_comma_free_entry_witness :
  fst (E4418._error_check
         (mkWorld ["-224," ++ DQ ++ "Illegal parameter value" ++ DQ] []))
  = Raise (StandardError (matched_text entry_illegal_parameter))
  /\ (exists n, n <> 0
                /\ reply_of ("-224," ++ DQ ++ "Illegal parameter value" ++ DQ)
                   = Return (n, error_item.msg entry_illegal_parameter))
  /\ In entry_illegal_parameter error_list
  /\ count (error_item.msg entry_illegal_parameter) "," = O
  /\ entry_illegal_parameter <> entry_both_inputs.
Proof.
  assert (fst (E4418._error_check
                 (mkWorld ["-224," ++ DQ ++ "Illegal parameter value" ++ DQ] []))
          = Raise (StandardError (matched_text entry_illegal_parameter))) as H
    by reflexivity.
  exact (conj H (error_check_reports_comma_free_entry _ [] [] _ H)).
Defined.

Lemma error_check_reports_entry_witness :
  In entry_illegal_parameter error_list
  /\ all_chars is_plain (error_item.msg entry_illegal_parameter) = true
  /\ -224 <> 0
  /\ E4418._error_check
       (mkWorld ["-224," ++ DQ ++ "Illegal parameter value" ++ DQ] [])
     = (Raise (StandardError (matched_text entry_illegal_parameter)),
        after_query ("-224," ++ DQ ++ "Illegal parameter value" ++ DQ) [] []).
Proof.
  assert (all_chars is_plain (error_item.msg entry_illegal_parameter) = true)
    as H1 by reflexivity.
  assert (-224 <> 0) as H2 by discriminate.
  exact (conj entry_illegal_parameter_In (conj H1 (conj H2
    (error_check_reports_entry entry_illegal_parameter (-224) [] []
       entry_illegal_parameter_In H1 H2)))).
Defined.

Lemma error_query_plus_sign_witness :
  0 <= 0
  /\ all_chars is_plain "No error" = true
  /\ fst (E4418.error_query (mkWorld ["+0," ++ DQ ++ "No error" ++ DQ] []))
     = Return (0, "No error").
Proof.
  assert (0 <= 0) as H1 by discriminate.
  assert (all_chars is_plain "No error" = true) as H2 by reflexivity.
  exact (conj H1 (conj H2 (error_query_plus_sign 0 "No error" [] [] H1 H2))).
Defined.

Lemma zeroing_first_check_raises_witness :
  check_reply "12" = Raise IndexError
  /\ E4418.zeroing 1 (mkWorld ["12"; "+0," ++ DQ ++ "No error" ++ DQ] [])
     = (Raise IndexError,
        mkWorld ["+0," ++ DQ ++ "No error" ++ DQ]
          [Send "CAL1:ZERO:AUTO ONCE"; Send "SYST:ERR?"; Readline "12"]).
Proof.
  assert (check_reply "12" = Raise IndexError) as H by reflexivity.
  exact (conj H (zeroing_first_check_raises 1 "12" _ [] _ H)).
Defined.

End MoreRuns.
